(** * BoundedSum: a differentially private bounded sum

    A shallow embedding of
    [differential_privacy/algorithms/bounded-sum.h] and the properties of
    its accumulation, result generation, serialisation and merge logic.

    The class template [BoundedSum<T>] is embedded once, over a type class
    [Numeric T] that lists the operations the template uses on [T]; an
    integral and a floating point instantiation, [int64_t] and [double],
    are given as instances ([Int64.numeric], [Double.numeric]).  The external
    collaborators ([ApproxBounds<T>], [LaplaceMechanism] and its builder)
    are interfaces, also type classes, with small executable instances
    used to run the code on concrete inputs. *)

From Stdlib Require Import ZArith Lia Bool String.
From Stdlib Require Import Floats.
From stdpp Require Import base option list.

Local Open Scope string_scope.
Local Open Scope Z_scope.

(* ===================================================================== *)
(** * Status and StatusOr (base/status.h) *)
(* ===================================================================== *)

Inductive StatusCode : Type :=
| kInvalidArgument
| kInternal
| kUnknown.

Inductive Status : Type :=
| OkStatus
| ErrorStatus (code : StatusCode) (message : string).

Definition InvalidArgumentError (message : string) : Status :=
  ErrorStatus kInvalidArgument message.

Definition Status_ok (s : Status) : bool :=
  match s with OkStatus => true | ErrorStatus _ _ => false end.

Inductive StatusOr (A : Type) : Type :=
| StatusValue (value : A)
| StatusError (code : StatusCode) (message : string).
Arguments StatusValue {A} value.
Arguments StatusError {A} code message.

Definition StatusOr_ok {A} (s : StatusOr A) : bool :=
  match s with StatusValue _ => true | StatusError _ _ => false end.

Definition StatusOr_status {A} (s : StatusOr A) : Status :=
  match s with
  | StatusValue _ => OkStatus
  | StatusError c m => ErrorStatus c m
  end.

(* ===================================================================== *)
(** * Wire messages (proto/summary.pb.h, proto/data.pb.h) *)
(* ===================================================================== *)

(** [ValueType]: a oneof of an integer, a floating point or a string
    value; [ValueNotSet] is the message with no field set. *)
Inductive ValueType : Type :=
| ValueNotSet
| IntValue (int_value : Z)
| FloatValue (float_value : float)
| StringValue (string_value : string).

(* ===================================================================== *)
(** * The numeric template parameter *)
(* ===================================================================== *)

(** What [BoundedSum<T>] and the helpers of util.h use of [T].  [T_neg x]
    is the source's [-1 * x]; [T_zero] is the literal [0] converted to
    [T]; [T_to_double] and [T_of_double] are the implicit conversions
    between [T] and [double]; [T_SetValue] and [T_GetValue] are util.h's
    [SetValue] and [GetValue<T>] on a [ValueType]. *)
Class Numeric (T : Type) : Type := {
  T_zero : T;
  T_add : T -> T -> T;
  T_neg : T -> T;
  T_abs : T -> T;
  T_ltb : T -> T -> bool;
  T_leb : T -> T -> bool;
  T_eqb : T -> T -> bool;
  T_isnan : T -> bool;
  T_max_limit : T;
  T_is_integral : bool;
  T_to_double : T -> float;
  T_of_double : float -> T;
  T_SetValue : T -> ValueType;
  T_GetValue : ValueType -> T;
}.

(** [std::min(a, b)] is [(b < a) ? b : a] and [std::max(a, b)] is
    [(a < b) ? b : a]. *)
Definition std_min {T} `{Numeric T} (a b : T) : T :=
  if T_ltb b a then b else a.

Definition std_max {T} `{Numeric T} (a b : T) : T :=
  if T_ltb a b then b else a.

(** Modelled from the spec: [Clamp<T>(low, high, value)] of util.h, which
    is not among the sources: it restricts [value] to [[low, high]]. *)
Definition Clamp {T} `{Numeric T} (low high value : T) : T :=
  if T_ltb high value then high
  else if T_ltb value low then low
  else value.

(** ** [T = int64_t]

    A 64-bit two's complement integer is a [Z] in [[-2^63, 2^63)];
    arithmetic wraps around (signed overflow, undefined in C++, is given
    the result the hardware produces). *)
Module Int64.

Definition min_int : Z := - (2 ^ 63).
Definition max_int : Z := 2 ^ 63 - 1.

Definition wrap (z : Z) : Z := (z + 2 ^ 63) mod 2 ^ 64 - 2 ^ 63.

Definition in_range (z : Z) : Prop := min_int <= z <= max_int.


Definition add (a b : Z) : Z := wrap (a + b).
Definition neg (a : Z) : Z := wrap (-1 * a).
Definition abs (a : Z) : Z := wrap (Z.abs a).

(** Conversion to [double] rounds to nearest, ties to even. *)
Definition to_double (z : Z) : float :=
  SF2Prim (binary_normalize prec emax z 0 false).

(** Conversion from [double] truncates towards zero; a NaN, an infinity
    or a value out of range gives [min_int] (what x86-64 produces). *)
Definition of_double (f : float) : Z :=
  match Prim2SF f with
  | S754_zero _ => 0
  | S754_finite s m e =>
      let magnitude :=
        if 0 <=? e then Z.pos m * 2 ^ e else Z.pos m / 2 ^ (- e) in
      let v := if s then - magnitude else magnitude in
      if (min_int <=? v) && (v <=? max_int) then v else min_int
  | _ => min_int
  end.

Definition SetValue (z : Z) : ValueType := IntValue z.

Definition GetValue (v : ValueType) : Z :=
  match v with IntValue z => z | _ => 0 end.

#[global] Instance numeric : Numeric Z := {|
  T_zero := 0;
  T_add := add;
  T_neg := neg;
  T_abs := abs;
  T_ltb := Z.ltb;
  T_leb := Z.leb;
  T_eqb := Z.eqb;
  T_isnan := fun _ => false;
  T_max_limit := max_int;
  T_is_integral := true;
  T_to_double := to_double;
  T_of_double := of_double;
  T_SetValue := SetValue;
  T_GetValue := GetValue;
|}.

End Int64.

(** ** [T = double]: IEEE 754 binary64, the kernel's primitive floats. *)
Module Double.

Definition minus_one : float := Eval compute in PrimFloat.opp PrimFloat.one.

(** [std::numeric_limits<double>::max()]. *)
Definition max_limit : float := Eval compute in PrimFloat.next_down infinity.

Definition SetValue (f : float) : ValueType := FloatValue f.

Definition GetValue (v : ValueType) : float :=
  match v with FloatValue f => f | _ => PrimFloat.zero end.

#[global] Instance numeric : Numeric float := {|
  T_zero := PrimFloat.zero;
  T_add := PrimFloat.add;
  T_neg := PrimFloat.mul minus_one;
  T_abs := PrimFloat.abs;
  T_ltb := PrimFloat.ltb;
  T_leb := PrimFloat.leb;
  T_eqb := PrimFloat.eqb;
  T_isnan := PrimFloat.is_nan;
  T_max_limit := max_limit;
  T_is_integral := false;
  T_to_double := fun f => f;
  T_of_double := fun f => f;
  T_SetValue := SetValue;
  T_GetValue := GetValue;
|}.

End Double.

(** [std::round] on a [double]: to the nearest integer, halfway cases away
    from zero. *)
Definition std_round (x : float) : float :=
  match Prim2SF x with
  | S754_finite s m e =>
      if 0 <=? e then x
      else
        let d := 2 ^ (- e) in
        let n := (2 * Z.pos m + d) / (2 * d) in
        SF2Prim (binary_normalize prec emax (if s then - n else n) 0 s)
  | _ => x
  end.

(** [ConfidenceInterval] of proto/confidence-interval.pb.h. *)
Record ConfidenceInterval : Type := {
  ci_lower_bound : float;
  ci_upper_bound : float;
  ci_confidence_level : float;
}.

(** [Output]: the repeated [elements] (each holding one [ValueType]) and
    the optional [error_report] with its two optional parts.  [BR] is the
    histogram's [BoundingReport] message. *)
Record ErrorReport (BR : Type) : Type := {
  noise_confidence_interval : option ConfidenceInterval;
  bounding_report : option BR;
}.
Arguments noise_confidence_interval {BR} _.
Arguments bounding_report {BR} _.

Record Output (BR : Type) : Type := {
  elements : list ValueType;
  error_report : option (ErrorReport BR);
}.
Arguments elements {BR} _.
Arguments error_report {BR} _.

(** [Output()]: the default message. *)
Definition Output_default {BR} : Output BR :=
  {| elements := []; error_report := None |}.

(** [output.elements(i).value()]; the accessor's contract wants
    [i < elements_size()], outside it the default message stands in. *)
Definition Output_element_value {BR} (o : Output BR) (i : nat) : ValueType :=
  default ValueNotSet (elements o !! i).

Definition ErrorReport_default {BR} : ErrorReport BR :=
  {| noise_confidence_interval := None; bounding_report := None |}.

(** [*(output.mutable_error_report()->mutable_bounding_report()) = r]. *)
Definition Output_set_bounding_report {BR} (o : Output BR) (r : BR)
  : Output BR :=
  let er := default ErrorReport_default (error_report o) in
  {| elements := elements o;
     error_report :=
       Some {| noise_confidence_interval := noise_confidence_interval er;
               bounding_report := Some r |} |}.

(** [*(output.mutable_error_report()->mutable_noise_confidence_interval())
    = ci]. *)
Definition Output_set_noise_confidence_interval {BR} (o : Output BR)
    (ci : ConfidenceInterval) : Output BR :=
  let er := default ErrorReport_default (error_report o) in
  {| elements := elements o;
     error_report :=
       Some {| noise_confidence_interval := Some ci;
               bounding_report := bounding_report er |} |}.

(** util.h's [AddToOutput<T>(&output, value)]: one more element, holding
    [value]. *)
Definition AddToOutput {T} `{Numeric T} {BR} (o : Output BR) (value : T)
  : Output BR :=
  {| elements := elements o ++ [T_SetValue value];
     error_report := error_report o |}.

(** [BoundedSumSummary]: the two repeated fields and the optional embedded
    histogram summary, of message type [ABS]. *)
Record BoundedSumSummary (ABS : Type) : Type := {
  bss_pos_sum : list ValueType;
  bss_neg_sum : list ValueType;
  bss_bounds_summary : option ABS;
}.
Arguments bss_pos_sum {ABS} _.
Arguments bss_neg_sum {ABS} _.
Arguments bss_bounds_summary {ABS} _.

(** [google.protobuf.Any]: a packed message tagged with its type.
    [PackFrom] tags, [UnpackTo] succeeds exactly on the matching tag. *)
Inductive Any (ABS : Type) : Type :=
| Any_BoundedSumSummary (m : BoundedSumSummary ABS)
| Any_ApproxBoundsSummary (m : ABS)
| Any_other (type_url : string).
Arguments Any_BoundedSumSummary {ABS} m.
Arguments Any_ApproxBoundsSummary {ABS} m.
Arguments Any_other {ABS} type_url.

(** [Summary]: the optional [data] field. *)
Record Summary (ABS : Type) : Type := {
  data : option (Any ABS);
}.
Arguments data {ABS} _.

(* ===================================================================== *)
(** * The collaborators *)
(* ===================================================================== *)

(** [ApproxBounds<T>] (approx-bounds.h), as far as [BoundedSum<T>] calls
    it.  An operation that may change the histogram returns the new
    histogram; [ApproxBounds_ComputeFromPartials] takes the partial sums,
    the transform, the two bounds and the count. *)
Class ApproxBoundsLib (T : Type) : Type := {
  ApproxBounds : Type;
  ApproxBoundsSummary : Type;
  BoundingReport : Type;
  ApproxBoundsSummary_default : ApproxBoundsSummary;
  ApproxBounds_AddEntry : ApproxBounds -> T -> ApproxBounds;
  ApproxBounds_AddToPartialSums : ApproxBounds -> list T -> T -> list T;
  ApproxBounds_GenerateResult :
    ApproxBounds -> float -> StatusOr (Output BoundingReport) * ApproxBounds;
  ApproxBounds_ComputeFromPartials :
    ApproxBounds -> list T -> list T -> (T -> T) -> T -> T -> Z -> T;
  ApproxBounds_GetBoundingReport : ApproxBounds -> T -> T -> BoundingReport;
  ApproxBounds_Serialize : ApproxBounds -> Summary ApproxBoundsSummary;
  ApproxBounds_Merge :
    ApproxBounds -> Summary ApproxBoundsSummary -> Status * ApproxBounds;
  ApproxBounds_ResetState : ApproxBounds -> ApproxBounds;
  ApproxBounds_NumPositiveBins : ApproxBounds -> nat;
}.

(** [LaplaceMechanism] and [LaplaceMechanism::Builder]
    (numerical-mechanisms.h).  The setters return the builder they
    changed; [LaplaceMechanism_AddNoise] returns the mechanism along with
    the noised value, since drawing noise advances its random source. *)
Class LaplaceMechanismLib : Type := {
  LaplaceMechanism : Type;
  LaplaceMechanism_Builder : Type;
  Builder_SetEpsilon :
    LaplaceMechanism_Builder -> float -> LaplaceMechanism_Builder;
  Builder_SetSensitivity :
    LaplaceMechanism_Builder -> float -> LaplaceMechanism_Builder;
  Builder_Build : LaplaceMechanism_Builder -> StatusOr LaplaceMechanism;
  Builder_Clone : LaplaceMechanism_Builder -> LaplaceMechanism_Builder;
  LaplaceMechanism_AddNoise :
    LaplaceMechanism -> float -> float -> float * LaplaceMechanism;
  LaplaceMechanism_NoiseConfidenceInterval :
    LaplaceMechanism -> float -> float -> StatusOr ConfidenceInterval;
}.

(* ===================================================================== *)
(** * Calls, runs and the monad of the fallible methods *)
(* ===================================================================== *)

(** The calls a method makes to its collaborators that spend privacy
    budget, build a mechanism or compute on the histogram, with their
    arguments, in the order made. *)
Inductive Call (T : Type) : Type :=
| Call_ApproxBounds_GenerateResult (privacy_budget : float)
| Call_ApproxBounds_ComputeFromPartials (lower upper : T)
| Call_ApproxBounds_GetBoundingReport (lower upper : T)
| Call_Builder_Build (epsilon sensitivity : float)
| Call_NoiseConfidenceInterval (confidence_level privacy_budget : float)
| Call_AddNoise (result privacy_budget : float).
Arguments Call_ApproxBounds_GenerateResult {T} privacy_budget.
Arguments Call_ApproxBounds_ComputeFromPartials {T} lower upper.
Arguments Call_ApproxBounds_GetBoundingReport {T} lower upper.
Arguments Call_Builder_Build {T} epsilon sensitivity.
Arguments Call_NoiseConfidenceInterval {T} confidence_level privacy_budget.
Arguments Call_AddNoise {T} result privacy_budget.

(** One run of a method on an object of state [S]: what it returned, the
    state it left (also when it returned an error), the calls it made. *)
Record Run (T S A : Type) : Type := {
  returned : StatusOr A;
  final : S;
  calls : list (Call T);
}.
Arguments returned {T S A} _.
Arguments final {T S A} _.
Arguments calls {T S A} _.

Definition M (T S A : Type) : Type := S -> Run T S A.

#[global] Instance M_ret {T S} : MRet (M T S) :=
  fun A (a : A) s => {| returned := StatusValue a; final := s; calls := [] |}.

(** Sequencing stops at the first error, keeping the state reached and
    the calls made so far. *)
#[global] Instance M_bind {T S} : MBind (M T S) :=
  fun A B (k : A -> M T S B) (m : M T S A) s =>
    match m s with
    | {| returned := StatusValue a; final := s'; calls := cs |} =>
        match k a s' with
        | {| returned := r; final := s''; calls := cs' |} =>
            {| returned := r; final := s''; calls := cs ++ cs' |}
        end
    | {| returned := StatusError c msg; final := s'; calls := cs |} =>
        {| returned := StatusError c msg; final := s'; calls := cs |}
    end.

Definition get {T S} : M T S S :=
  fun s => {| returned := StatusValue s; final := s; calls := [] |}.

Definition modify {T S} (f : S -> S) : M T S unit :=
  fun s => {| returned := StatusValue tt; final := f s; calls := [] |}.

Definition call {T S} (c : Call T) : M T S unit :=
  fun s => {| returned := StatusValue tt; final := s; calls := [c] |}.

(** [return StatusOr]: leave the method with this answer. *)
Definition answer {T S A} (r : StatusOr A) : M T S A :=
  fun s => {| returned := r; final := s; calls := [] |}.

(** [RETURN_IF_ERROR(status)]. *)
Definition RETURN_IF_ERROR {T S} (st : Status) : M T S unit :=
  match st with
  | OkStatus => mret tt
  | ErrorStatus c msg => answer (StatusError c msg)
  end.

(** A fallible call whose failure does not end the method: its
    [StatusOr] is handed to the continuation. *)
Definition attempt {T S A} (m : M T S A) : M T S (StatusOr A) :=
  fun s =>
    match m s with
    | {| returned := r; final := s'; calls := cs |} =>
        {| returned := StatusValue r; final := s'; calls := cs |}
    end.

(** A failed [DCHECK] ends the process; otherwise the method completes
    with its run. *)
Inductive Outcome (A : Type) : Type :=
| CheckFailed (message : string)
| Completed (run : A).
Arguments CheckFailed {A} message.
Arguments Completed {A} run.

(** What the build and algorithm.h fix: whether [DCHECK]s are compiled in
    (they are compiled out of optimised builds), and the confidence level
    of the interval attached to a result. *)
Class Platform : Type := {
  DCHECK_IS_ON : bool;
  kDefaultConfidenceLevel : float;
}.

(** [DCHECK_GT(a, b)] holds when the check is compiled out or [a > b]. *)
Definition DCHECK_GT `{Platform} (a b : float) : bool :=
  negb DCHECK_IS_ON || PrimFloat.ltb b a.

(* ===================================================================== *)
(** * BoundedSum<T> *)
(* ===================================================================== *)

Section BoundedSum.

Context {T : Type} `{Numeric T} `{ApproxBoundsLib T} `{LaplaceMechanismLib}
        `{Platform}.

(** The data members.  [epsilon_] is [Algorithm<T>]'s; an empty
    [mechanism_] or [approx_bounds_] is the null pointer. *)
Record BoundedSum : Type := {
  pos_sum_ : list T;
  neg_sum_ : list T;
  lower_ : T;
  upper_ : T;
  epsilon_ : float;
  laplace_mechanism_builder_ : LaplaceMechanism_Builder;
  mechanism_ : option LaplaceMechanism;
  approx_bounds_ : option ApproxBounds;
}.

Definition set_pos_sum (v : list T) (bs : BoundedSum) : BoundedSum :=
  {| pos_sum_ := v; neg_sum_ := neg_sum_ bs; lower_ := lower_ bs;
     upper_ := upper_ bs; epsilon_ := epsilon_ bs;
     laplace_mechanism_builder_ := laplace_mechanism_builder_ bs;
     mechanism_ := mechanism_ bs; approx_bounds_ := approx_bounds_ bs |}.

Definition set_neg_sum (v : list T) (bs : BoundedSum) : BoundedSum :=
  {| pos_sum_ := pos_sum_ bs; neg_sum_ := v; lower_ := lower_ bs;
     upper_ := upper_ bs; epsilon_ := epsilon_ bs;
     laplace_mechanism_builder_ := laplace_mechanism_builder_ bs;
     mechanism_ := mechanism_ bs; approx_bounds_ := approx_bounds_ bs |}.

Definition set_lower (v : T) (bs : BoundedSum) : BoundedSum :=
  {| pos_sum_ := pos_sum_ bs; neg_sum_ := neg_sum_ bs; lower_ := v;
     upper_ := upper_ bs; epsilon_ := epsilon_ bs;
     laplace_mechanism_builder_ := laplace_mechanism_builder_ bs;
     mechanism_ := mechanism_ bs; approx_bounds_ := approx_bounds_ bs |}.

Definition set_upper (v : T) (bs : BoundedSum) : BoundedSum :=
  {| pos_sum_ := pos_sum_ bs; neg_sum_ := neg_sum_ bs; lower_ := lower_ bs;
     upper_ := v; epsilon_ := epsilon_ bs;
     laplace_mechanism_builder_ := laplace_mechanism_builder_ bs;
     mechanism_ := mechanism_ bs; approx_bounds_ := approx_bounds_ bs |}.

Definition set_builder (v : LaplaceMechanism_Builder) (bs : BoundedSum)
  : BoundedSum :=
  {| pos_sum_ := pos_sum_ bs; neg_sum_ := neg_sum_ bs; lower_ := lower_ bs;
     upper_ := upper_ bs; epsilon_ := epsilon_ bs;
     laplace_mechanism_builder_ := v;
     mechanism_ := mechanism_ bs; approx_bounds_ := approx_bounds_ bs |}.

Definition set_mechanism (v : option LaplaceMechanism) (bs : BoundedSum)
  : BoundedSum :=
  {| pos_sum_ := pos_sum_ bs; neg_sum_ := neg_sum_ bs; lower_ := lower_ bs;
     upper_ := upper_ bs; epsilon_ := epsilon_ bs;
     laplace_mechanism_builder_ := laplace_mechanism_builder_ bs;
     mechanism_ := v; approx_bounds_ := approx_bounds_ bs |}.

Definition set_approx_bounds (v : option ApproxBounds) (bs : BoundedSum)
  : BoundedSum :=
  {| pos_sum_ := pos_sum_ bs; neg_sum_ := neg_sum_ bs; lower_ := lower_ bs;
     upper_ := upper_ bs; epsilon_ := epsilon_ bs;
     laplace_mechanism_builder_ := laplace_mechanism_builder_ bs;
     mechanism_ := mechanism_ bs; approx_bounds_ := v |}.

(** The protected constructor: one zero per histogram bin on both sides
    when bounds are inferred, one zero in [pos_sum_] alone otherwise. *)
Definition new_BoundedSum (epsilon : float) (lower upper : T)
    (mechanism_builder : LaplaceMechanism_Builder)
    (mechanism : option LaplaceMechanism)
    (approx_bounds : option ApproxBounds) : BoundedSum :=
  match approx_bounds with
  | Some ab =>
      {| pos_sum_ := replicate (ApproxBounds_NumPositiveBins ab) T_zero;
         neg_sum_ := replicate (ApproxBounds_NumPositiveBins ab) T_zero;
         lower_ := lower; upper_ := upper; epsilon_ := epsilon;
         laplace_mechanism_builder_ := mechanism_builder;
         mechanism_ := mechanism; approx_bounds_ := approx_bounds |}
  | None =>
      {| pos_sum_ := [T_zero];
         neg_sum_ := [];
         lower_ := lower; upper_ := upper; epsilon_ := epsilon;
         laplace_mechanism_builder_ := mechanism_builder;
         mechanism_ := mechanism; approx_bounds_ := None |}
  end.

(** ** Builder::CheckLowerBound *)
Definition CheckLowerBound (lower : T) : Status :=
  if T_ltb lower (T_neg T_max_limit) then
    InvalidArgumentError
      ("Lower bound cannot be higher in magnitude than the max "
       ++ "numeric limit. If manually bounding, please increase it by "
       ++ "at least 1.")
  else OkStatus.

(** ** AddEntry

    [v[i] += x] is [alter (fun s => T_add s x) i v]; the source indexes
    within the vector's size only. *)
Definition AddEntry (t : T) (bs : BoundedSum) : BoundedSum :=
  if T_isnan t then bs
  else
    match approx_bounds_ bs with
    | None =>
        set_pos_sum
          (alter (fun s => T_add s (Clamp (lower_ bs) (upper_ bs) t)) 0%nat
                 (pos_sum_ bs))
          bs
    | Some ab =>
        let ab' := ApproxBounds_AddEntry ab t in
        let bs' := set_approx_bounds (Some ab') bs in
        if T_leb T_zero t then
          set_pos_sum (ApproxBounds_AddToPartialSums ab' (pos_sum_ bs') t) bs'
        else
          set_neg_sum (ApproxBounds_AddToPartialSums ab' (neg_sum_ bs') t) bs'
    end.

(** Feeding a sequence of entries, first to last. *)
Definition AddEntries (ts : list T) (bs : BoundedSum) : BoundedSum :=
  foldl (fun acc t => AddEntry t acc) bs ts.

(** ** BuildMechanism *)
Definition BuildMechanism : M T BoundedSum unit :=
  bs ← get;
  match mechanism_ bs with
  | Some _ => mret tt
  | None =>
      let epsilon := epsilon_ bs in
      let sensitivity :=
        T_to_double (std_max (T_abs (lower_ bs)) (T_abs (upper_ bs))) in
      let builder :=
        Builder_SetSensitivity
          (Builder_SetEpsilon (laplace_mechanism_builder_ bs) epsilon)
          sensitivity in
      modify (set_builder builder);;
      call (Call_Builder_Build epsilon sensitivity);;
      mechanism ← answer (Builder_Build builder);
      modify (set_mechanism (Some mechanism))
  end.

(** ** NoiseConfidenceIntervalImpl *)
Definition NoiseConfidenceIntervalImpl (confidence_level : float)
    (privacy_budget : float) : M T BoundedSum ConfidenceInterval :=
  bs ← get;
  match mechanism_ bs with
  | None =>
      answer
        (StatusError kInvalidArgument
           ("Mechanism not yet constructed. Try getting noise confidence "
            ++ "interval after generating result."))
  | Some mechanism =>
      call (Call_NoiseConfidenceInterval confidence_level privacy_budget);;
      answer
        (LaplaceMechanism_NoiseConfidenceInterval
           mechanism confidence_level privacy_budget)
  end.

(** ** NoiseConfidenceInterval *)
Definition NoiseConfidenceInterval (confidence_level : float)
    (privacy_budget : float) : M T BoundedSum ConfidenceInterval :=
  bs ← get;
  match approx_bounds_ bs with
  | Some _ =>
      answer
        (StatusError kInvalidArgument
           ("NoiseConfidenceInterval changes per result generation for "
            ++ "automatically-determined sensitivity."))
  | None => NoiseConfidenceIntervalImpl confidence_level privacy_budget
  end.

(** ** GenerateResult

    [GenerateResult] is the method: the [DCHECK_GT] of its first line,
    then [GenerateResult_after_check], the rest of its body.  The three
    locals [output], [sum] and [remaining_budget] leave the
    [if (approx_bounds_)] statement as a triple. *)
Definition GenerateResult_after_check (privacy_budget : float)
  : M T BoundedSum (Output BoundingReport) :=
  if PrimFloat.eqb privacy_budget 0%float then mret Output_default
  else
    bs ← get;
    '(output, sum, remaining_budget) ←
      match approx_bounds_ bs with
      | Some ab =>
          let bounds_budget := (privacy_budget / 2)%float in
          let remaining_budget := (privacy_budget - bounds_budget)%float in
          call (Call_ApproxBounds_GenerateResult bounds_budget);;
          let '(bounds_or, ab') :=
            ApproxBounds_GenerateResult ab bounds_budget in
          modify (set_approx_bounds (Some ab'));;
          bounds ← answer bounds_or;
          let lower := T_GetValue (Output_element_value bounds 0) in
          let upper := T_GetValue (Output_element_value bounds 1) in
          RETURN_IF_ERROR (CheckLowerBound lower);;
          modify (set_lower (std_min lower (T_neg upper)));;
          modify (set_upper (std_max upper (T_neg lower)));;
          bs ← get;
          call (Call_ApproxBounds_ComputeFromPartials (lower_ bs) (upper_ bs));;
          let sum :=
            T_to_double
              (ApproxBounds_ComputeFromPartials
                 ab' (pos_sum_ bs) (neg_sum_ bs) (fun x => x)
                 (lower_ bs) (upper_ bs) 0) in
          call (Call_ApproxBounds_GetBoundingReport (lower_ bs) (upper_ bs));;
          let output :=
            Output_set_bounding_report Output_default
              (ApproxBounds_GetBoundingReport ab' (lower_ bs) (upper_ bs)) in
          modify (set_mechanism None);;
          mret (output, sum, remaining_budget)
      | None =>
          mret (Output_default,
                T_to_double (default T_zero (pos_sum_ bs !! 0%nat)),
                privacy_budget)
      end;
    BuildMechanism;;
    interval ← attempt
      (NoiseConfidenceIntervalImpl kDefaultConfidenceLevel remaining_budget);
    let output :=
      match interval with
      | StatusValue ci => Output_set_noise_confidence_interval output ci
      | StatusError _ _ => output
      end in
    bs ← get;
    match mechanism_ bs with
    | None =>
        (* not reached: BuildMechanism has just left a mechanism *)
        answer (StatusError kInternal "mechanism_ is null")
    | Some mechanism =>
        call (Call_AddNoise sum remaining_budget);;
        let '(noisy_sum, mechanism') :=
          LaplaceMechanism_AddNoise mechanism sum remaining_budget in
        modify (set_mechanism (Some mechanism'));;
        if T_is_integral then
          mret (AddToOutput output (T_of_double (std_round noisy_sum)))
        else
          mret (AddToOutput output (T_of_double noisy_sum))
    end.

Definition GenerateResult (privacy_budget : float) (bs : BoundedSum)
  : Outcome (Run T BoundedSum (Output BoundingReport)) :=
  if DCHECK_GT privacy_budget 0%float then
    Completed (GenerateResult_after_check privacy_budget bs)
  else CheckFailed "Privacy budget should be greater than zero.".

(** ** ResetState *)
Definition ResetState (bs : BoundedSum) : BoundedSum :=
  let bs1 := set_pos_sum (replicate (length (pos_sum_ bs)) T_zero) bs in
  let bs2 := set_neg_sum (replicate (length (neg_sum_ bs1)) T_zero) bs1 in
  match approx_bounds_ bs2 with
  | Some ab =>
      set_mechanism None
        (set_approx_bounds (Some (ApproxBounds_ResetState ab)) bs2)
  | None => bs2
  end.

(** ** Serialize *)
Definition Serialize (bs : BoundedSum) : Summary ApproxBoundsSummary :=
  let bs_summary :=
    {| bss_pos_sum := map T_SetValue (pos_sum_ bs);
       bss_neg_sum := map T_SetValue (neg_sum_ bs);
       bss_bounds_summary :=
         match approx_bounds_ bs with
         | Some ab =>
             (* UnpackTo(bs_summary.mutable_bounds_summary()) *)
             Some
               match data (ApproxBounds_Serialize ab) with
               | Some (Any_ApproxBoundsSummary m) => m
               | _ => ApproxBoundsSummary_default
               end
         | None => None
         end |} in
  {| data := Some (Any_BoundedSumSummary bs_summary) |}.

(** ** Merge

    The loop [for i in 0 .. sums.size(): sums[i] += GetValue<T>(values(i))]. *)
Definition add_values (sums : list T) (values : list ValueType) : list T :=
  foldl
    (fun acc i =>
       alter
         (fun s => T_add s (T_GetValue (default ValueNotSet (values !! i))))
         i acc)
    sums (seq 0 (length sums)).

(** The state is returned along with the status, whatever the status. *)
Definition Merge (summary : Summary ApproxBoundsSummary) (bs : BoundedSum)
  : Status * BoundedSum :=
  match data summary with
  | None =>
      (InvalidArgumentError "Cannot merge summary with no bounded sum data.",
       bs)
  | Some (Any_BoundedSumSummary bs_summary) =>
      if negb (length (pos_sum_ bs) =? length (bss_pos_sum bs_summary))%nat
         || negb (length (neg_sum_ bs) =? length (bss_neg_sum bs_summary))%nat
      then
        (InvalidArgumentError
           ("Merged BoundedSum must have the same amount of partial sum "
            ++ "values as this BoundedSum."),
         bs)
      else
        let bs1 :=
          set_pos_sum (add_values (pos_sum_ bs) (bss_pos_sum bs_summary)) bs in
        let bs2 :=
          set_neg_sum (add_values (neg_sum_ bs1) (bss_neg_sum bs_summary))
                      bs1 in
        match approx_bounds_ bs2 with
        | Some ab =>
            let approx_bounds_summary :=
              {| data :=
                   Some
                     (Any_ApproxBoundsSummary
                        (default ApproxBoundsSummary_default
                                 (bss_bounds_summary bs_summary))) |} in
            (* RETURN_IF_ERROR(...); return OkStatus(): the histogram's
               status either way *)
            let '(status, ab') :=
              ApproxBounds_Merge ab approx_bounds_summary in
            (status, set_approx_bounds (Some ab') bs2)
        | None => (OkStatus, bs2)
        end
  | Some _ =>
      (InvalidArgumentError "Bounded sum summary unable to be unpacked.", bs)
  end.

End BoundedSum.

(* ===================================================================== *)
(** * BoundedSum<T>::Builder *)
(* ===================================================================== *)

Section Builder.

Context {T : Type} `{Numeric T} `{ApproxBoundsLib T} `{LaplaceMechanismLib}.

(** The members the builder inherits from [AlgorithmBuilder] and
    [BoundedAlgorithmBuilder]. *)
Record BoundedSum_Builder : Type := {
  builder_epsilon_ : float;
  builder_laplace_mechanism_builder_ : LaplaceMechanism_Builder;
  builder_has_lower_ : bool;
  builder_has_upper_ : bool;
  builder_lower_ : T;
  builder_upper_ : T;
  builder_approx_bounds_ : option ApproxBounds;
}.

Definition builder_set_mechanism_builder (v : LaplaceMechanism_Builder)
    (b : BoundedSum_Builder) : BoundedSum_Builder :=
  {| builder_epsilon_ := builder_epsilon_ b;
     builder_laplace_mechanism_builder_ := v;
     builder_has_lower_ := builder_has_lower_ b;
     builder_has_upper_ := builder_has_upper_ b;
     builder_lower_ := builder_lower_ b;
     builder_upper_ := builder_upper_ b;
     builder_approx_bounds_ := builder_approx_bounds_ b |}.

Definition builder_set_approx_bounds (v : option ApproxBounds)
    (b : BoundedSum_Builder) : BoundedSum_Builder :=
  {| builder_epsilon_ := builder_epsilon_ b;
     builder_laplace_mechanism_builder_ :=
       builder_laplace_mechanism_builder_ b;
     builder_has_lower_ := builder_has_lower_ b;
     builder_has_upper_ := builder_has_upper_ b;
     builder_lower_ := builder_lower_ b;
     builder_upper_ := builder_upper_ b;
     builder_approx_bounds_ := v |}.

(** [BoundedAlgorithmBuilder::BoundsSetup] (bounded-algorithm.h): it
    returns a status and may change the builder. *)
Variable BoundsSetup : BoundedSum_Builder -> Status * BoundedSum_Builder.

(** ** Builder::BuildAlgorithm *)
Definition BuildAlgorithm : M T BoundedSum_Builder BoundedSum :=
  b ← get;
  let '(status, b') := BoundsSetup b in
  modify (fun _ => b');;
  RETURN_IF_ERROR status;;
  b ← get;
  mechanism ←
    (if builder_has_upper_ b && builder_has_lower_ b then
       RETURN_IF_ERROR (CheckLowerBound (builder_lower_ b));;
       let epsilon := builder_epsilon_ b in
       let sensitivity :=
         T_to_double
           (std_max (T_abs (builder_lower_ b)) (T_abs (builder_upper_ b))) in
       let builder :=
         Builder_SetSensitivity
           (Builder_SetEpsilon (builder_laplace_mechanism_builder_ b) epsilon)
           sensitivity in
       modify (builder_set_mechanism_builder builder);;
       call (Call_Builder_Build epsilon sensitivity);;
       mechanism ← answer (Builder_Build builder);
       mret (Some mechanism)
     else mret None);
  b ← get;
  let mech_builder := Builder_Clone (builder_laplace_mechanism_builder_ b) in
  modify (builder_set_approx_bounds None);;
  mret (new_BoundedSum (builder_epsilon_ b) (builder_lower_ b)
          (builder_upper_ b) mech_builder mechanism
          (builder_approx_bounds_ b)).

End Builder.

(* ===================================================================== *)
(** * Executable collaborators

    Small instances of the collaborators' interfaces, on which the
    methods above run on concrete inputs.  The library's own classes are
    not among the sources, and are randomised. *)
(* ===================================================================== *)

(** Modelled from the spec: [LaplaceMechanism] and its builder
    (numerical-mechanisms.h, not among the sources), with the interface
    the spec gives them and a random source that always draws zero
    noise. *)
Module ZeroNoise.

Record builder : Type := {
  builder_epsilon : float;
  builder_sensitivity : float;
}.

Record mechanism : Type := {
  epsilon : float;
  sensitivity : float;
  draws : nat;
}.

Definition fresh_builder : builder :=
  {| builder_epsilon := 0%float; builder_sensitivity := 0%float |}.

Definition SetEpsilon (b : builder) (e : float) : builder :=
  {| builder_epsilon := e; builder_sensitivity := builder_sensitivity b |}.

Definition SetSensitivity (b : builder) (s : float) : builder :=
  {| builder_epsilon := builder_epsilon b; builder_sensitivity := s |}.

(** Fails on an epsilon or a sensitivity that is not positive. *)
Definition Build (b : builder) : StatusOr mechanism :=
  if negb (0 <? builder_epsilon b)%float then
    StatusError kInvalidArgument "Epsilon has to be positive."
  else if negb (0 <? builder_sensitivity b)%float then
    StatusError kInvalidArgument "Sensitivity has to be positive."
  else
    StatusValue {| epsilon := builder_epsilon b;
                   sensitivity := builder_sensitivity b;
                   draws := 0 |}.

Definition AddNoise (m : mechanism) (result privacy_budget : float)
  : float * mechanism :=
  ((result + 0)%float,
   {| epsilon := epsilon m; sensitivity := sensitivity m;
      draws := S (draws m) |}).

(** Fails on a confidence level outside [[0, 1]]. *)
Definition NoiseConfidenceInterval (m : mechanism)
    (confidence_level privacy_budget : float) : StatusOr ConfidenceInterval :=
  if negb ((0 <=? confidence_level) && (confidence_level <=? 1))%float then
    StatusError kInvalidArgument "Confidence level has to be in [0,1]."
  else
    let width := (sensitivity m / (epsilon m * privacy_budget))%float in
    StatusValue {| ci_lower_bound := (- width)%float;
                   ci_upper_bound := width;
                   ci_confidence_level := confidence_level |}.

Definition lib : LaplaceMechanismLib := {|
  LaplaceMechanism := mechanism;
  LaplaceMechanism_Builder := builder;
  Builder_SetEpsilon := SetEpsilon;
  Builder_SetSensitivity := SetSensitivity;
  Builder_Build := Build;
  Builder_Clone := fun b => b;
  LaplaceMechanism_AddNoise := AddNoise;
  LaplaceMechanism_NoiseConfidenceInterval := NoiseConfidenceInterval;
|}.

End ZeroNoise.

(** Modelled from the spec: [ApproxBounds<T>] (approx-bounds.h, not among
    the sources), with the interface the spec gives it, as a logarithmic
    histogram of entry counts with no noise of its own: bin [i] of a side
    counts the entries of that sign whose magnitude has its most
    significant bit at [i].  It reports as bounds the boundaries of the
    outermost bins in use, and reconstructs a sum by adding up the partial
    sums of both sides. *)
Module PlainHistogram.

Record histogram : Type := {
  pos_bins : list Z;
  neg_bins : list Z;
}.

Record summary : Type := {
  pos_bin_count : list Z;
  neg_bin_count : list Z;
}.

Record report : Type := {
  report_lower : ValueType;
  report_upper : ValueType;
}.

Definition with_bins (n : nat) : histogram :=
  {| pos_bins := replicate n 0; neg_bins := replicate n 0 |}.

Section Over.

Context {T : Type} `{Numeric T}.

(** The bin of a value and the values on a bin's outer boundary. *)
Variable bin_of : T -> nat.
Variable boundary : nat -> T.

Definition AddEntry (h : histogram) (t : T) : histogram :=
  if T_leb T_zero t then
    {| pos_bins := alter Z.succ (bin_of t) (pos_bins h);
       neg_bins := neg_bins h |}
  else
    {| pos_bins := pos_bins h;
       neg_bins := alter Z.succ (bin_of t) (neg_bins h) |}.

Definition AddToPartialSums (h : histogram) (sums : list T) (t : T)
  : list T :=
  alter (fun s => T_add s t) (bin_of t) sums.

(** The index after the last bin in use, [0] when none is. *)
Fixpoint bins_in_use (bins : list Z) : nat :=
  match bins with
  | [] => 0%nat
  | c :: rest =>
      match bins_in_use rest with
      | O => if 0 <? c then 1%nat else 0%nat
      | S k => S (S k)
      end
  end.

Definition lower_estimate (h : histogram) : T :=
  match bins_in_use (neg_bins h) with
  | S k => T_neg (boundary k)
  | O => T_zero
  end.

Definition upper_estimate (h : histogram) : T :=
  match bins_in_use (pos_bins h) with
  | S k => boundary k
  | O => T_zero
  end.

Definition GenerateResult (h : histogram) (privacy_budget : float)
  : StatusOr (Output report) * histogram :=
  if negb (0 <? privacy_budget)%float then
    (StatusError kInvalidArgument "Privacy budget has to be positive.", h)
  else
    (StatusValue
       {| elements := [T_SetValue (lower_estimate h);
                       T_SetValue (upper_estimate h)];
          error_report := None |},
     h).

Definition ComputeFromPartials (h : histogram) (pos_sum neg_sum : list T)
    (value_transform : T -> T) (lower upper : T) (count : Z) : T :=
  foldl T_add T_zero (map value_transform (pos_sum ++ neg_sum)).

Definition GetBoundingReport (h : histogram) (lower upper : T) : report :=
  {| report_lower := T_SetValue lower; report_upper := T_SetValue upper |}.

Definition Serialize (h : histogram) : Summary summary :=
  {| data :=
       Some (Any_ApproxBoundsSummary
               {| pos_bin_count := pos_bins h;
                  neg_bin_count := neg_bins h |}) |}.

(** Fails on a summary without data, of another type, or with another
    number of bins; otherwise adds the counts bin by bin. *)
Definition Merge (h : histogram) (s : Summary summary)
  : Status * histogram :=
  match data s with
  | None =>
      (InvalidArgumentError "Cannot merge summary with no histogram data.",
       h)
  | Some (Any_ApproxBoundsSummary m) =>
      if negb (length (pos_bins h) =? length (pos_bin_count m))%nat
         || negb (length (neg_bins h) =? length (neg_bin_count m))%nat
      then
        (InvalidArgumentError
           "Merged approximate bounds must have the same amount of bins.",
         h)
      else
        (OkStatus,
         {| pos_bins := zip_with Z.add (pos_bins h) (pos_bin_count m);
            neg_bins := zip_with Z.add (neg_bins h) (neg_bin_count m) |})
  | Some _ =>
      (InvalidArgumentError "Histogram summary unable to be unpacked.", h)
  end.

Definition ResetState (h : histogram) : histogram :=
  {| pos_bins := replicate (length (pos_bins h)) 0;
     neg_bins := replicate (length (neg_bins h)) 0 |}.

Definition lib : ApproxBoundsLib T := {|
  ApproxBounds := histogram;
  ApproxBoundsSummary := summary;
  BoundingReport := report;
  ApproxBoundsSummary_default :=
    {| pos_bin_count := []; neg_bin_count := [] |};
  ApproxBounds_AddEntry := AddEntry;
  ApproxBounds_AddToPartialSums := AddToPartialSums;
  ApproxBounds_GenerateResult := GenerateResult;
  ApproxBounds_ComputeFromPartials := ComputeFromPartials;
  ApproxBounds_GetBoundingReport := GetBoundingReport;
  ApproxBounds_Serialize := Serialize;
  ApproxBounds_Merge := Merge;
  ApproxBounds_ResetState := ResetState;
  ApproxBounds_NumPositiveBins := fun h => length (pos_bins h);
|}.

End Over.

(** Over [int64_t]: bin [i] ends at magnitude [2^i]. *)
Definition int64_bin_of (z : Z) : nat := Z.to_nat (Z.log2_up (Z.abs z)).
Definition int64_boundary (i : nat) : Z := 2 ^ Z.of_nat i.
Definition int64_lib : ApproxBoundsLib Z := lib int64_bin_of int64_boundary.

(** Over [double], through the integer part of the value. *)
Definition double_bin_of (f : float) : nat :=
  int64_bin_of (Int64.of_double f).
Definition double_boundary (i : nat) : float :=
  Int64.to_double (int64_boundary i).
Definition double_lib : ApproxBoundsLib float :=
  lib double_bin_of double_boundary.

End PlainHistogram.

(** An optimised build and a debug build, both with a default confidence
    level of 95%. *)
Definition optimised_build : Platform :=
  {| DCHECK_IS_ON := false; kDefaultConfidenceLevel := 0x1.e666666666666p-1%float |}.

Definition debug_build : Platform :=
  {| DCHECK_IS_ON := true; kDefaultConfidenceLevel := 0x1.e666666666666p-1%float |}.

(** ** Concrete accumulators *)
Module Examples.

(** Accumulators over [int64_t] and over [double], with epsilon 1, no
    mechanism built yet, and the collaborators above. *)
Definition manual_int64 (lower upper : Z)
  : @BoundedSum Z PlainHistogram.int64_lib ZeroNoise.lib :=
  @new_BoundedSum Z Int64.numeric PlainHistogram.int64_lib ZeroNoise.lib
    1%float lower upper ZeroNoise.fresh_builder None None.

Definition manual_double (lower upper : float)
  : @BoundedSum float PlainHistogram.double_lib ZeroNoise.lib :=
  @new_BoundedSum float Double.numeric PlainHistogram.double_lib ZeroNoise.lib
    1%float lower upper ZeroNoise.fresh_builder None None.

Definition auto_int64 (bins : nat)
  : @BoundedSum Z PlainHistogram.int64_lib ZeroNoise.lib :=
  @new_BoundedSum Z Int64.numeric PlainHistogram.int64_lib ZeroNoise.lib
    1%float 0 0 ZeroNoise.fresh_builder None
    (Some (PlainHistogram.with_bins bins)).

(** A bounded-sum payload for two bins a side that carries no histogram
    summary. *)
Definition payload_without_histogram
  : Summary (@ApproxBoundsSummary Z PlainHistogram.int64_lib) :=
  {| data :=
       Some (Any_BoundedSumSummary
               {| bss_pos_sum := [IntValue 5; IntValue 0];
                  bss_neg_sum := [IntValue 0; IntValue 0];
                  bss_bounds_summary := None |}) |}.

(** A payload with no data at all. *)
Definition payload_without_data
  : Summary (@ApproxBoundsSummary Z PlainHistogram.int64_lib) :=
  {| data := None |}.

(** A builder over [int64_t] with both bounds set, and a [BoundsSetup]
    that accepts it as it is. *)
Definition builder_int64 (lower upper : Z)
  : @BoundedSum_Builder Z PlainHistogram.int64_lib ZeroNoise.lib :=
  @Build_BoundedSum_Builder Z PlainHistogram.int64_lib ZeroNoise.lib
    1%float ZeroNoise.fresh_builder true true lower upper None.

Definition BoundsSetup_accepts
    (b : @BoundedSum_Builder Z PlainHistogram.int64_lib ZeroNoise.lib)
  : Status * @BoundedSum_Builder Z PlainHistogram.int64_lib ZeroNoise.lib :=
  (OkStatus, b).

End Examples.

(** A call that spends privacy budget on the sum itself (the noise and its
    confidence interval) spends [budget]; no call is one to the
    histogram's bound inference. *)
Definition spends_on_sum {T} (budget : float) (c : Call T) : Prop :=
  match c with
  | Call_ApproxBounds_GenerateResult _ => False
  | Call_NoiseConfidenceInterval _ b => b = budget
  | Call_AddNoise _ b => b = budget
  | _ => True
  end.

(** What the spec lists as the validation of [Merge]: the payload carries
    data, the data decodes as a bounded-sum summary, and the summary's
    [pos_sum] and [neg_sum] are as long as the instance's. *)
Definition Merge_validates {T} `{ApproxBoundsLib T} `{LaplaceMechanismLib}
    (summary : Summary ApproxBoundsSummary) (bs : BoundedSum) : bool :=
  match data summary with
  | Some (Any_BoundedSumSummary bs_summary) =>
      (length (pos_sum_ bs) =? length (bss_pos_sum bs_summary))%nat
      && (length (neg_sum_ bs) =? length (bss_neg_sum bs_summary))%nat
  | _ => false
  end.

(** The noise confidence interval attached to an output, if any. *)
Definition Output_noise_confidence_interval {BR} (o : Output BR)
  : option ConfidenceInterval :=
  er ← error_report o; noise_confidence_interval er.

(** ** A caller of the public methods

    One call to a public method that may change the object, and what a
    sequence of such calls leaves of it.  A call whose [DCHECK] fails ends
    the process: there is no object left. *)
Inductive Operation (T ABS : Type) : Type :=
| Op_AddEntry (t : T)
| Op_Merge (summary : Summary ABS)
| Op_ResetState
| Op_GenerateResult (privacy_budget : float)
| Op_NoiseConfidenceInterval (confidence_level privacy_budget : float).
Arguments Op_AddEntry {T ABS} t.
Arguments Op_Merge {T ABS} summary.
Arguments Op_ResetState {T ABS}.
Arguments Op_GenerateResult {T ABS} privacy_budget.
Arguments Op_NoiseConfidenceInterval {T ABS} confidence_level privacy_budget.

Definition apply_operation {T} `{Numeric T} `{ApproxBoundsLib T}
    `{LaplaceMechanismLib} `{Platform}
    (op : Operation T ApproxBoundsSummary) (bs : BoundedSum)
  : option BoundedSum :=
  match op with
  | Op_AddEntry t => Some (AddEntry t bs)
  | Op_Merge summary => Some (snd (Merge summary bs))
  | Op_ResetState => Some (ResetState bs)
  | Op_GenerateResult privacy_budget =>
      match GenerateResult privacy_budget bs with
      | Completed run => Some (final run)
      | CheckFailed _ => None
      end
  | Op_NoiseConfidenceInterval confidence_level privacy_budget =>
      Some (final (NoiseConfidenceInterval confidence_level privacy_budget bs))
  end.

Fixpoint apply_operations {T} `{Numeric T} `{ApproxBoundsLib T}
    `{LaplaceMechanismLib} `{Platform}
    (ops : list (Operation T ApproxBoundsSummary)) (bs : BoundedSum)
  : option BoundedSum :=
  match ops with
  | [] => Some bs
  | op :: ops' =>
      match apply_operation op bs with
      | Some bs' => apply_operations ops' bs'
      | None => None
      end
  end.

(** The elements of the output that a call has returned, if it has
    returned one. *)
Definition returned_elements {T S BR}
    (outcome : Outcome (Run T S (Output BR))) : list ValueType :=
  match outcome with
  | Completed {| returned := StatusValue output |} => elements output
  | _ => []
  end.

(** The bounding report attached to an output, if any. *)
Definition Output_bounding_report {BR} (o : Output BR) : option BR :=
  er ← error_report o; bounding_report er.

(* ===================================================================== *)
(** * Laws of the numeric type *)
(* ===================================================================== *)

(** What both instantiations share: [T_add] is commutative, and a value
    survives its trip through a [ValueType]. *)
Class CommutativeAddition (T : Type) `{Numeric T} : Type := {
  T_add_comm : forall x y, T_add x y = T_add y x;
  T_GetValue_SetValue : forall x, T_GetValue (T_SetValue x) = x;
}.

(** Exact addition: on the values of [T], [T_add] is moreover associative
    with unit [T_zero].  Wrap-around integers are of this kind; floating
    point numbers are not, their addition rounds. *)
Class ExactAddition (T : Type) `{Numeric T} `{!CommutativeAddition T}
  : Type := {
  T_value : T -> Prop;
  T_value_zero : T_value T_zero;
  T_value_add : forall x y, T_value (T_add x y);
  T_add_assoc : forall x y z, T_add x (T_add y z) = T_add (T_add x y) z;
  T_add_zero_l : forall x, T_value x -> T_add T_zero x = x;
}.


(* ===================================================================== *)
(** * Properties *)
(* ===================================================================== *)

(** ** [int64_t] obeys the laws *)

Lemma Int64_wrap_in_range (z : Z) : Int64.in_range (Int64.wrap z).
Proof.
  unfold Int64.in_range, Int64.wrap, Int64.min_int, Int64.max_int.
  pose proof (Z.mod_pos_bound (z + 2 ^ 63) (2 ^ 64) ltac:(lia)). lia.
Qed.

Lemma Int64_wrap_small (z : Z) : Int64.in_range z -> Int64.wrap z = z.
Proof.
  unfold Int64.in_range, Int64.wrap, Int64.min_int, Int64.max_int. intros Hz.
  rewrite Z.mod_small by lia. lia.
Qed.

Lemma Int64_wrap_add_l (a b : Z) :
  Int64.wrap (Int64.wrap a + b) = Int64.wrap (a + b).
Proof.
  unfold Int64.wrap.
  replace ((a + 2 ^ 63) mod 2 ^ 64 - 2 ^ 63 + b + 2 ^ 63)
    with ((a + 2 ^ 63) mod 2 ^ 64 + b) by lia.
  rewrite Zplus_mod_idemp_l. f_equal. f_equal. lia.
Qed.

Lemma Int64_value_zero : Int64.in_range 0.
Proof. unfold Int64.in_range, Int64.min_int, Int64.max_int. lia. Qed.

Lemma Int64_add_comm (x y : Z) : Int64.add x y = Int64.add y x.
Proof. unfold Int64.add. f_equal. lia. Qed.

Lemma Int64_add_assoc (x y z : Z) :
  Int64.add x (Int64.add y z) = Int64.add (Int64.add x y) z.
Proof.
  unfold Int64.add.
  rewrite Int64_wrap_add_l.
  rewrite (Z.add_comm x (Int64.wrap (y + z))), Int64_wrap_add_l.
  f_equal. lia.
Qed.

Lemma Int64_add_zero_l (x : Z) : Int64.in_range x -> Int64.add 0 x = x.
Proof. intros Hx. unfold Int64.add. simpl. now apply Int64_wrap_small. Qed.

#[global] Instance Int64_commutative_addition
  : @CommutativeAddition Z Int64.numeric :=
  Build_CommutativeAddition Z Int64.numeric
    Int64_add_comm (fun x => eq_refl).

#[global] Instance Int64_exact_addition
  : @ExactAddition Z Int64.numeric Int64_commutative_addition :=
  Build_ExactAddition Z Int64.numeric Int64_commutative_addition
    Int64.in_range Int64_value_zero
    (fun x y => Int64_wrap_in_range (x + y))
    Int64_add_assoc Int64_add_zero_l.

(** ** Addition of [double]s is commutative *)

Lemma SFadd_comm (x y : spec_float) : SF64add x y = SF64add y x.
Proof.
  unfold SF64add.
  destruct x as [sx|sx| |sx mx ex], y as [sy|sy| |sy my ey];
    cbn [SFadd]; try reflexivity; try (now destruct sx, sy).
  cbv zeta. now rewrite (Z.min_comm ey ex), Z.add_comm.
Qed.

Lemma Double_add_comm (x y : float) : (x + y = y + x)%float.
Proof. apply Prim2SF_inj. rewrite !add_spec. apply SFadd_comm. Qed.

#[global] Instance Double_commutative_addition
  : @CommutativeAddition float Double.numeric :=
  Build_CommutativeAddition float Double.numeric
    Double_add_comm (fun x => eq_refl).









(** ** Running the monad *)

(** Unfolds the monad's operations in the goal, down to the records of
    the runs. *)
Ltac run_monad :=
  cbv beta iota zeta
      delta [mbind mret M_bind M_ret get modify call answer attempt
             RETURN_IF_ERROR];
  cbn [returned final calls app].

Section Properties.

Context {T : Type} {NT : Numeric T} {AB : ApproxBoundsLib T}
        {LM : LaplaceMechanismLib} {PF : Platform}.

Implicit Types (bs : BoundedSum) (t : T) (ts : list T).

(** ** GenerateResult with a zero budget *)

(** C4, as the code has it: where [DCHECK]s are compiled out,
    [GenerateResult] with a privacy budget equal to zero returns the
    default [Output], leaves the object as it was and calls none of its
    collaborators: no bound inference, no mechanism construction, no
    noise.  (With [DCHECK]s compiled in the [DCHECK_GT] of the first line
    stops the call instead.) *)
Theorem GenerateResult_zero_budget bs (privacy_budget : float) :
  DCHECK_IS_ON = false ->
  PrimFloat.eqb privacy_budget 0 = true ->
  GenerateResult privacy_budget bs
  = Completed {| returned := StatusValue Output_default;
                 final := bs;
                 calls := [] |}.
Proof.
  intros Hoff Hzero. unfold GenerateResult, DCHECK_GT.
  rewrite Hoff. cbn [negb orb].
  unfold GenerateResult_after_check. rewrite Hzero. reflexivity.
Qed.

(** ** Accumulation under manual bounds *)

Lemma AddEntry_nan t bs : T_isnan t = true -> AddEntry t bs = bs.
Proof. intros Hnan. unfold AddEntry. now rewrite Hnan. Qed.

Lemma AddEntry_manual t bs s :
  approx_bounds_ bs = None -> pos_sum_ bs = [s] -> T_isnan t = false ->
  AddEntry t bs = set_pos_sum [T_add s (Clamp (lower_ bs) (upper_ bs) t)] bs.
Proof.
  intros Hmanual Hsum Hnan. unfold AddEntry.
  now rewrite Hnan, Hmanual, Hsum.
Qed.

Lemma AddEntries_manual ts : forall bs s,
  approx_bounds_ bs = None -> pos_sum_ bs = [s] ->
  AddEntries ts bs
  = set_pos_sum
      [foldl T_add s
         (map (Clamp (lower_ bs) (upper_ bs))
              (List.filter (fun t => negb (T_isnan t)) ts))]
      bs.
Proof.
  induction ts as [|t ts IH]; intros bs s Hmanual Hsum.
  - simpl. destruct bs; simpl in *. now subst.
  - unfold AddEntries in *. cbn [foldl List.filter].
    destruct (T_isnan t) eqn:Hnan; cbn [negb].
    + rewrite AddEntry_nan by done. now apply IH.
    + rewrite (AddEntry_manual t bs s) by done.
      rewrite (IH _ (T_add s (Clamp (lower_ bs) (upper_ bs) t))) by done.
      reflexivity.
Qed.

(** X1: under manual bounds, an accumulator that is reset and then fed a
    sequence of entries is the accumulator it would be had it been fed
    that sequence from the start: [ResetState] puts the one slot back to
    zero and touches nothing else. *)
Theorem ResetState_then_AddEntries bs ts s :
  approx_bounds_ bs = None ->
  pos_sum_ bs = [s] ->
  AddEntries ts (ResetState bs)
  = AddEntries ts
      (set_neg_sum (replicate (length (neg_sum_ bs)) T_zero)
         (set_pos_sum [T_zero] bs))
  /\ pos_sum_ (AddEntries ts (ResetState bs))
     = pos_sum_
         (AddEntries ts
            (new_BoundedSum (epsilon_ bs) (lower_ bs) (upper_ bs)
               (laplace_mechanism_builder_ bs) (mechanism_ bs) None)).
Proof.
  intros Hmanual Hsum.
  assert (Hreset :
    ResetState bs
    = set_neg_sum (replicate (length (neg_sum_ bs)) T_zero)
        (set_pos_sum [T_zero] bs)).
  { unfold ResetState.
    cbn [approx_bounds_ set_neg_sum set_pos_sum neg_sum_ pos_sum_].
    now rewrite Hmanual, Hsum. }
  split; [now rewrite Hreset|].
  rewrite Hreset, !(AddEntries_manual _ _ T_zero) by done.
  reflexivity.
Qed.

(** A mechanism is in place once [BuildMechanism] has returned without an
    error. *)
Lemma BuildMechanism_leaves_mechanism bs u :
  returned (BuildMechanism bs) = StatusValue u ->
  exists mechanism, mechanism_ (final (BuildMechanism bs)) = Some mechanism.
Proof.
  unfold BuildMechanism. run_monad.
  destruct (mechanism_ bs) as [m|] eqn:Hm; run_monad.
  - intros _. now exists m.
  - destruct (Builder_Build _) as [m|c msg]; run_monad; [|done].
    intros _. now exists m.
Qed.

(** The run of [GenerateResult] past its first two lines, under manual
    bounds. *)
Lemma GenerateResult_manual_run bs (privacy_budget : float) :
  approx_bounds_ bs = None ->
  PrimFloat.eqb privacy_budget 0 = false ->
  let build := BuildMechanism bs in
  let run := GenerateResult_after_check privacy_budget bs in
  match returned build with
  | StatusValue _ =>
      StatusOr_ok (returned run) = true
      /\ calls run
         = (calls build
            ++ [Call_NoiseConfidenceInterval kDefaultConfidenceLevel
                  privacy_budget;
                Call_AddNoise
                  (T_to_double (default T_zero (pos_sum_ bs !! 0%nat)))
                  privacy_budget])%list
  | StatusError c msg =>
      returned run = StatusError c msg /\ calls run = calls build
  end.
Proof.
  intros Hmanual Hbudget build run. subst run build.
  pose proof (BuildMechanism_leaves_mechanism bs) as Hleaves.
  unfold GenerateResult_after_check. rewrite Hbudget. run_monad.
  rewrite Hmanual. run_monad.
  destruct (BuildMechanism bs) as [[u|c msg] bs' cs];
    cbn [returned final calls] in *; [|done].
  destruct (Hleaves u eq_refl) as [mechanism Hmech].
  unfold NoiseConfidenceIntervalImpl. run_monad. rewrite Hmech. run_monad.
  destruct (LaplaceMechanism_NoiseConfidenceInterval _ _ _) as [ci|c msg];
    run_monad; rewrite Hmech; run_monad;
    destruct (LaplaceMechanism_AddNoise _ _ _) as [noisy_sum mechanism'];
    run_monad; destruct T_is_integral; run_monad;
    (split; [reflexivity | now rewrite <- ?app_assoc]).
Qed.

(** The run of [GenerateResult] past its first two lines under manual
    bounds, in full: [noise m bs0 cs] is the part after [BuildMechanism],
    with the mechanism [m] in the object [bs0] after the calls [cs]. *)
Lemma GenerateResult_manual_full bs (privacy_budget : float) :
  approx_bounds_ bs = None ->
  PrimFloat.eqb privacy_budget 0 = false ->
  let sum := T_to_double (default T_zero (pos_sum_ bs !! 0%nat)) in
  let noise (m : LaplaceMechanism) (bs0 : BoundedSum) (cs : list (Call T)) :=
    let output :=
      match
        LaplaceMechanism_NoiseConfidenceInterval
          m kDefaultConfidenceLevel privacy_budget
      with
      | StatusValue ci =>
          Output_set_noise_confidence_interval
            (@Output_default BoundingReport) ci
      | StatusError _ _ => Output_default
      end in
    let noised := LaplaceMechanism_AddNoise m sum privacy_budget in
    {| returned :=
         StatusValue
           (AddToOutput output
              (T_of_double
                 (if T_is_integral then std_round (fst noised)
                  else fst noised)));
       final := set_mechanism (Some (snd noised)) bs0;
       calls :=
         (cs ++ [Call_NoiseConfidenceInterval kDefaultConfidenceLevel
                   privacy_budget;
                 Call_AddNoise sum privacy_budget])%list |} in
  let sensitivity :=
    T_to_double (std_max (T_abs (lower_ bs)) (T_abs (upper_ bs))) in
  let builder :=
    Builder_SetSensitivity
      (Builder_SetEpsilon (laplace_mechanism_builder_ bs) (epsilon_ bs))
      sensitivity in
  GenerateResult_after_check privacy_budget bs
  = match mechanism_ bs with
    | Some m => noise m bs []
    | None =>
        match Builder_Build builder with
        | StatusValue m =>
            noise m (set_builder builder bs)
              [Call_Builder_Build (epsilon_ bs) sensitivity]
        | StatusError c msg =>
            {| returned := StatusError c msg;
               final := set_builder builder bs;
               calls := [Call_Builder_Build (epsilon_ bs) sensitivity] |}
        end
    end.
Proof.
  intros Hmanual Hbudget. cbv zeta.
  unfold GenerateResult_after_check. rewrite Hbudget. run_monad.
  rewrite Hmanual. run_monad. unfold BuildMechanism. run_monad.
  destruct (mechanism_ bs) as [m|] eqn:Hm; run_monad.
  - unfold NoiseConfidenceIntervalImpl. run_monad. rewrite Hm. run_monad.
    destruct (LaplaceMechanism_NoiseConfidenceInterval _ _ _) as [ci|c msg];
      run_monad; rewrite Hm; run_monad;
      destruct (LaplaceMechanism_AddNoise _ _ _) as [noisy_sum m'];
      run_monad; cbn [fst snd]; destruct T_is_integral; reflexivity.
  - destruct (Builder_Build _) as [m|c msg]; run_monad; [|reflexivity].
    unfold NoiseConfidenceIntervalImpl. run_monad.
    cbn [mechanism_ set_mechanism set_builder]. run_monad.
    destruct (LaplaceMechanism_NoiseConfidenceInterval _ _ _) as [ci|c msg];
      run_monad; cbn [mechanism_ set_mechanism set_builder]; run_monad;
      destruct (LaplaceMechanism_AddNoise _ _ _) as [noisy_sum m'];
      run_monad; cbn [fst snd]; destruct T_is_integral; reflexivity.
Qed.

(** What a successful [GenerateResult] returns under manual bounds: the
    element of the output is the first component of what the mechanism's
    [AddNoise] returns for [pos_sum_[0]] converted to [double] and the
    whole budget, and the mechanism left in place is its second
    component; the mechanism is the one [BuildMechanism] leaves. *)
Lemma GenerateResult_manual_noise bs (privacy_budget : float) output :
  approx_bounds_ bs = None ->
  PrimFloat.eqb privacy_budget 0 = false ->
  let run := GenerateResult_after_check privacy_budget bs in
  let sum := T_to_double (default T_zero (pos_sum_ bs !! 0%nat)) in
  returned run = StatusValue output ->
  exists m,
    mechanism_ (final (BuildMechanism bs)) = Some m
    /\ let noised := LaplaceMechanism_AddNoise m sum privacy_budget in
       elements output
       = [T_SetValue
            (T_of_double
               (if T_is_integral then std_round (fst noised)
                else fst noised))]
       /\ mechanism_ (final run) = Some (snd noised)
       /\ pos_sum_ (final run) = pos_sum_ bs.
Proof.
  intros Hmanual Hbudget. cbv zeta.
  rewrite GenerateResult_manual_full by done.
  unfold BuildMechanism. run_monad.
  destruct (mechanism_ bs) as [m|] eqn:Hm; run_monad.
  - cbn [returned final mechanism_ set_mechanism pos_sum_].
    intros [= <-]. exists m. rewrite Hm. split; [reflexivity|].
    destruct (LaplaceMechanism_NoiseConfidenceInterval _ _ _);
      repeat split.
  - destruct (Builder_Build _) as [m|c msg]; run_monad;
      cbn [returned final mechanism_ set_mechanism set_builder pos_sum_];
      [|discriminate].
    intros [= <-]. exists m. split; [reflexivity|].
    destruct (LaplaceMechanism_NoiseConfidenceInterval _ _ _);
      repeat split.
Qed.

(** C1, as the code has it: under manual bounds, an accumulator fresh
    from its constructor that is fed any finite sequence of entries holds,
    in its one slot, the sum of the clamped entries that are not NaN as
    [T]'s own addition accumulates it, first entry to last; an entry that
    is NaN leaves every accumulator as it was.  The pre-noise sum of
    [GenerateResult] is that sum converted to [double]: the element of the
    output is what the mechanism's [AddNoise] returns for it and the whole
    budget (rounded first when [T] is integral), and the mechanism left in
    place is the one that [AddNoise] returns.  The call fails only if
    building the mechanism does, with the builder's error. *)
Theorem manual_bounds_sum
    (epsilon : float) (lower upper : T)
    (mechanism_builder : LaplaceMechanism_Builder)
    (mechanism : option LaplaceMechanism)
    ts (privacy_budget : float) :
  DCHECK_GT privacy_budget 0 = true ->
  PrimFloat.eqb privacy_budget 0 = false ->
  let bs0 :=
    new_BoundedSum epsilon lower upper mechanism_builder mechanism None in
  let bs := AddEntries ts bs0 in
  let total :=
    foldl T_add T_zero
      (map (Clamp lower upper) (List.filter (fun t => negb (T_isnan t)) ts)) in
  bs = set_pos_sum [total] bs0
  /\ (forall t bs', T_isnan t = true -> AddEntry t bs' = bs')
  /\ exists run,
       GenerateResult privacy_budget bs = Completed run
       /\ match returned (BuildMechanism bs) with
          | StatusValue _ =>
              StatusOr_ok (returned run) = true
              /\ calls run
                 = (calls (BuildMechanism bs)
                    ++ [Call_NoiseConfidenceInterval kDefaultConfidenceLevel
                          privacy_budget;
                        Call_AddNoise (T_to_double total) privacy_budget])%list
          | StatusError c msg =>
              returned run = StatusError c msg
              /\ calls run = calls (BuildMechanism bs)
          end
       /\ forall output,
            returned run = StatusValue output ->
            exists m,
              mechanism_ (final (BuildMechanism bs)) = Some m
              /\ let noised :=
                   LaplaceMechanism_AddNoise
                     m (T_to_double total) privacy_budget in
                 elements output
                 = [T_SetValue
                      (T_of_double
                         (if T_is_integral then std_round (fst noised)
                          else fst noised))]
                 /\ mechanism_ (final run) = Some (snd noised)
                 /\ pos_sum_ (final run) = [total].
Proof.
  intros Hcheck Hbudget bs0 bs total.
  assert (Hbs : bs = set_pos_sum [total] bs0).
  { subst bs. now rewrite (AddEntries_manual ts bs0 T_zero). }
  assert (Hmanual : approx_bounds_ bs = None) by now rewrite Hbs.
  assert (Hslot : default T_zero (pos_sum_ bs !! 0%nat) = total)
    by now rewrite Hbs.
  assert (Hpos : pos_sum_ bs = [total]) by now rewrite Hbs.
  split; [exact Hbs|]. split; [intros t bs'; apply AddEntry_nan|].
  exists (GenerateResult_after_check privacy_budget bs). split; [|split].
  - unfold GenerateResult. now rewrite Hcheck.
  - pose proof (GenerateResult_manual_run bs privacy_budget) as Hrun.
    cbv zeta in Hrun. rewrite Hslot in Hrun. now apply Hrun.
  - intros output Hout.
    pose proof (GenerateResult_manual_noise bs privacy_budget output
                  Hmanual Hbudget) as Hnoise.
    cbv zeta in Hnoise. rewrite Hslot, Hpos in Hnoise. now apply Hnoise.
Qed.

(** ** The noise confidence interval *)

(** C8, as the code has it: with inferred bounds
    [NoiseConfidenceInterval] fails with an
    invalid-argument error whatever the confidence level and the budget.
    With manual bounds it fails with an invalid-argument error of its own,
    the mechanism not being asked, exactly when no mechanism has been
    built yet; and with a mechanism built it asks the mechanism, once, and
    returns what the mechanism's [NoiseConfidenceInterval] returns for the
    same arguments.  The object is left as it was in every case. *)
Theorem NoiseConfidenceInterval_by_mode bs
    (confidence_level privacy_budget : float) :
  let run := NoiseConfidenceInterval confidence_level privacy_budget bs in
  let not_constructed :=
    StatusError kInvalidArgument
      ("Mechanism not yet constructed. Try getting noise confidence "
       ++ "interval after generating result.") in
  final run = bs
  /\ (is_Some (approx_bounds_ bs) ->
      returned run
      = StatusError kInvalidArgument
          ("NoiseConfidenceInterval changes per result generation for "
           ++ "automatically-determined sensitivity.")
      /\ calls run = [])
  /\ (approx_bounds_ bs = None ->
      (mechanism_ bs = None
       <-> returned run = not_constructed /\ calls run = [])
      /\ (forall mechanism,
            mechanism_ bs = Some mechanism ->
            returned run
            = LaplaceMechanism_NoiseConfidenceInterval
                mechanism confidence_level privacy_budget
            /\ calls run
               = [Call_NoiseConfidenceInterval confidence_level
                    privacy_budget])).
Proof.
  unfold NoiseConfidenceInterval, NoiseConfidenceIntervalImpl. run_monad.
  destruct (approx_bounds_ bs) as [ab|]; run_monad.
  { split; [done|]. split; [done|discriminate]. }
  split; [|split; [intros [ab [=]]|intros _]].
  - now destruct (mechanism_ bs).
  - destruct (mechanism_ bs) as [mechanism|]; run_monad.
    + split; [split; [discriminate|intros [_ [=]]]|].
      now intros m [= <-].
    + split; [done|discriminate].
Qed.

(** ** Result generation with inferred bounds *)

(** The histogram's answer fails: the call ends with that error, after
    the one call to the histogram. *)
Lemma GenerateResult_auto_no_bounds bs ab (privacy_budget : float) c msg ab' :
  approx_bounds_ bs = Some ab ->
  PrimFloat.eqb privacy_budget 0 = false ->
  ApproxBounds_GenerateResult ab (privacy_budget / 2)%float
  = (StatusError c msg, ab') ->
  GenerateResult_after_check privacy_budget bs
  = {| returned := StatusError c msg;
       final := set_approx_bounds (Some ab') bs;
       calls := [Call_ApproxBounds_GenerateResult (privacy_budget / 2)%float]
    |}.
Proof.
  intros Hauto Hbudget Hbounds.
  unfold GenerateResult_after_check. rewrite Hbudget. run_monad.
  rewrite Hauto. run_monad. rewrite Hbounds. run_monad. reflexivity.
Qed.

(** The inferred lower bound fails [CheckLowerBound]: the call ends with
    the check's error, after the one call to the histogram. *)
Lemma GenerateResult_auto_bad_lower bs ab (privacy_budget : float) bounds ab' :
  approx_bounds_ bs = Some ab ->
  PrimFloat.eqb privacy_budget 0 = false ->
  ApproxBounds_GenerateResult ab (privacy_budget / 2)%float
  = (StatusValue bounds, ab') ->
  T_ltb (T_GetValue (Output_element_value bounds 0)) (T_neg T_max_limit)
  = true ->
  GenerateResult_after_check privacy_budget bs
  = {| returned :=
         StatusError kInvalidArgument
           ("Lower bound cannot be higher in magnitude than the max "
            ++ "numeric limit. If manually bounding, please increase it by "
            ++ "at least 1.");
       final := set_approx_bounds (Some ab') bs;
       calls := [Call_ApproxBounds_GenerateResult (privacy_budget / 2)%float]
    |}.
Proof.
  intros Hauto Hbudget Hbounds Hlower.
  unfold GenerateResult_after_check. rewrite Hbudget. run_monad.
  rewrite Hauto. run_monad. rewrite Hbounds. run_monad.
  unfold CheckLowerBound. rewrite Hlower. run_monad. reflexivity.
Qed.

(** The inferred lower bound passes the check: the whole run, which ends
    with the builder's error or with the noised sum. *)
Lemma GenerateResult_auto_run bs ab (privacy_budget : float) bounds ab' :
  approx_bounds_ bs = Some ab ->
  PrimFloat.eqb privacy_budget 0 = false ->
  ApproxBounds_GenerateResult ab (privacy_budget / 2)%float
  = (StatusValue bounds, ab') ->
  T_ltb (T_GetValue (Output_element_value bounds 0)) (T_neg T_max_limit)
  = false ->
  let lower := T_GetValue (Output_element_value bounds 0) in
  let upper := T_GetValue (Output_element_value bounds 1) in
  let lower' := std_min lower (T_neg upper) in
  let upper' := std_max upper (T_neg lower) in
  let remaining_budget := (privacy_budget - privacy_budget / 2)%float in
  let sensitivity := T_to_double (std_max (T_abs lower') (T_abs upper')) in
  let builder :=
    Builder_SetSensitivity
      (Builder_SetEpsilon (laplace_mechanism_builder_ bs) (epsilon_ bs))
      sensitivity in
  let sum :=
    T_to_double
      (ApproxBounds_ComputeFromPartials
         ab' (pos_sum_ bs) (neg_sum_ bs) (fun x => x) lower' upper' 0) in
  let output :=
    Output_set_bounding_report Output_default
      (ApproxBounds_GetBoundingReport ab' lower' upper') in
  let bs' :=
    set_builder builder
      (set_upper upper' (set_lower lower' (set_approx_bounds (Some ab') bs))) in
  let inferred :=
    [Call_ApproxBounds_GenerateResult (privacy_budget / 2)%float;
     Call_ApproxBounds_ComputeFromPartials lower' upper';
     Call_ApproxBounds_GetBoundingReport lower' upper';
     Call_Builder_Build (epsilon_ bs) sensitivity] in
  GenerateResult_after_check privacy_budget bs
  = match Builder_Build builder with
    | StatusError c msg =>
        {| returned := StatusError c msg;
           final := set_mechanism None bs';
           calls := inferred |}
    | StatusValue mechanism =>
        let output :=
          match
            LaplaceMechanism_NoiseConfidenceInterval
              mechanism kDefaultConfidenceLevel remaining_budget
          with
          | StatusValue ci => Output_set_noise_confidence_interval output ci
          | StatusError _ _ => output
          end in
        let noised := LaplaceMechanism_AddNoise mechanism sum remaining_budget in
        {| returned :=
             StatusValue
               (AddToOutput output
                  (T_of_double
                     (if T_is_integral then std_round (fst noised)
                      else fst noised)));
           final := set_mechanism (Some (snd noised)) bs';
           calls :=
             (inferred
              ++ [Call_NoiseConfidenceInterval kDefaultConfidenceLevel
                    remaining_budget;
                  Call_AddNoise sum remaining_budget])%list |}
    end.
Proof.
  intros Hauto Hbudget Hbounds Hlower. cbv zeta.
  unfold GenerateResult_after_check. rewrite Hbudget. run_monad.
  rewrite Hauto. run_monad. rewrite Hbounds. run_monad.
  unfold CheckLowerBound. rewrite Hlower. run_monad.
  unfold BuildMechanism. run_monad. cbn [mechanism_ set_mechanism]. run_monad.
  cbn [lower_ upper_ pos_sum_ neg_sum_ epsilon_ laplace_mechanism_builder_
       set_mechanism set_upper set_lower set_approx_bounds set_builder].
  destruct (Builder_Build _) as [mechanism|c msg]; run_monad; [|reflexivity].
  unfold NoiseConfidenceIntervalImpl. run_monad.
  cbn [mechanism_ set_mechanism]. run_monad.
  destruct (LaplaceMechanism_NoiseConfidenceInterval _ _ _) as [ci|c msg];
    run_monad; cbn [mechanism_ set_mechanism]; run_monad;
    destruct (LaplaceMechanism_AddNoise _ _ _) as [noisy_sum mechanism'];
    run_monad; cbn [fst snd]; destruct T_is_integral; reflexivity.
Qed.



(** C9, as the code has it: with inferred bounds, for every privacy
    budget that the [DCHECK_GT] lets through.  A budget equal to zero
    makes no call at all and leaves the object as it was.  Any other
    budget is split: the histogram's [GenerateResult] is called with
    exactly [privacy_budget / 2] — the histogram left in the object is
    the one that call returns, and so is an error of the call —, and no
    further bound inference is made; the noise addition and the noise
    confidence interval get exactly
    [privacy_budget - privacy_budget / 2]: the element of a returned
    output is what the mechanism's [AddNoise] returns for the
    reconstructed sum and that remaining budget, the mechanism left in
    place is the one [AddNoise] returns, and the interval attached is the
    mechanism's for that remaining budget. *)
Theorem auto_bounds_budget_split bs ab (privacy_budget : float) :
  approx_bounds_ bs = Some ab ->
  DCHECK_GT privacy_budget 0 = true ->
  let bounds_budget := (privacy_budget / 2)%float in
  let remaining_budget := (privacy_budget - privacy_budget / 2)%float in
  let inferred := ApproxBounds_GenerateResult ab bounds_budget in
  exists run,
    GenerateResult privacy_budget bs = Completed run
    /\ if PrimFloat.eqb privacy_budget 0 then
         calls run = [] /\ final run = bs
       else
         approx_bounds_ (final run) = Some (snd inferred)
         /\ (forall c msg,
               fst inferred = StatusError c msg ->
               returned run = StatusError c msg)
         /\ exists rest,
              calls run
              = Call_ApproxBounds_GenerateResult bounds_budget :: rest
              /\ Forall (spends_on_sum remaining_budget) rest
              /\ forall output,
                   returned run = StatusValue output ->
                   exists bounds mechanism,
                     let sum :=
                       T_to_double
                         (ApproxBounds_ComputeFromPartials
                            (snd inferred) (pos_sum_ bs) (neg_sum_ bs)
                            (fun x => x)
                            (lower_ (final run)) (upper_ (final run)) 0) in
                     let noised :=
                       LaplaceMechanism_AddNoise
                         mechanism sum remaining_budget in
                     fst inferred = StatusValue bounds
                     /\ Builder_Build
                          (laplace_mechanism_builder_ (final run))
                        = StatusValue mechanism
                     /\ elements output
                        = [T_SetValue
                             (T_of_double
                                (if T_is_integral then std_round (fst noised)
                                 else fst noised))]
                     /\ mechanism_ (final run) = Some (snd noised)
                     /\ Output_noise_confidence_interval output
                        = match
                            LaplaceMechanism_NoiseConfidenceInterval
                              mechanism kDefaultConfidenceLevel
                              remaining_budget
                          with
                          | StatusValue ci => Some ci
                          | StatusError _ _ => None
                          end
                     /\ Call_NoiseConfidenceInterval kDefaultConfidenceLevel
                          remaining_budget ∈ rest
                     /\ Call_AddNoise sum remaining_budget ∈ rest.
Proof.
  intros Hauto Hcheck bounds_budget remaining_budget inferred.
  exists (GenerateResult_after_check privacy_budget bs).
  unfold GenerateResult. rewrite Hcheck. split; [reflexivity|].
  destruct (PrimFloat.eqb privacy_budget 0) eqn:Hbudget.
  { unfold GenerateResult_after_check. now rewrite Hbudget. }
  subst inferred.
  destruct (ApproxBounds_GenerateResult ab bounds_budget)
    as [[bounds|c msg] ab'] eqn:Hbounds; cbn [fst snd].
  2:{ rewrite (GenerateResult_auto_no_bounds bs ab _ c msg ab') by done.
      cbn [returned final calls approx_bounds_ set_approx_bounds].
      split; [reflexivity|]. split; [now intros c0 msg0 [= <- <-]|].
      exists []. repeat split; [constructor | discriminate]. }
  destruct (T_ltb (T_GetValue (Output_element_value bounds 0))
                  (T_neg T_max_limit)) eqn:Hlower.
  { rewrite (GenerateResult_auto_bad_lower bs ab _ bounds ab') by done.
    cbn [returned final calls approx_bounds_ set_approx_bounds].
    split; [reflexivity|]. split; [discriminate|].
    exists []. repeat split; [constructor | discriminate]. }
  rewrite (GenerateResult_auto_run bs ab privacy_budget bounds ab') by done.
  destruct (Builder_Build _) as [mechanism|c msg] eqn:Hbuild;
    cbn [returned final calls app approx_bounds_ lower_ upper_ mechanism_
         laplace_mechanism_builder_ set_mechanism set_builder set_upper
         set_lower set_approx_bounds].
  2:{ split; [reflexivity|]. split; [discriminate|].
      eexists. repeat split; [|discriminate]. repeat constructor. }
  split; [reflexivity|]. split; [discriminate|].
  eexists. split; [reflexivity|]. split; [repeat constructor|].
  intros output [= <-]. exists bounds, mechanism. cbv zeta.
  split; [reflexivity|]. split; [exact Hbuild|].
  split; [destruct (LaplaceMechanism_NoiseConfidenceInterval _ _ _);
          reflexivity|].
  split; [reflexivity|].
  split; [destruct (LaplaceMechanism_NoiseConfidenceInterval _ _ _);
          reflexivity|].
  split; rewrite !elem_of_cons; auto 6.
Qed.

(** ** The check of the lower bound *)

Lemma CheckLowerBound_fails_iff (lower : T) :
  Status_ok (CheckLowerBound lower) = false
  <-> T_ltb lower (T_neg T_max_limit) = true.
Proof.
  unfold CheckLowerBound.
  destruct (T_ltb lower (T_neg T_max_limit)); cbn; split; congruence.
Qed.

(** The builder, given both bounds: the lower bound is checked first, and
    the mechanism is built only when the check has passed. *)
Lemma BuildAlgorithm_checks_lower_bound
    (BoundsSetup : BoundedSum_Builder -> Status * BoundedSum_Builder) b b' :
  BoundsSetup b = (OkStatus, b') ->
  builder_has_upper_ b' = true ->
  builder_has_lower_ b' = true ->
  let run := BuildAlgorithm BoundsSetup b in
  let sensitivity :=
    T_to_double
      (std_max (T_abs (builder_lower_ b')) (T_abs (builder_upper_ b'))) in
  if T_ltb (builder_lower_ b') (T_neg T_max_limit) then
    returned run = StatusError kInvalidArgument
                     ("Lower bound cannot be higher in magnitude than the max "
                      ++ "numeric limit. If manually bounding, please "
                      ++ "increase it by at least 1.")
    /\ final run = b'
    /\ calls run = []
  else
    calls run = [Call_Builder_Build (builder_epsilon_ b') sensitivity].
Proof.
  intros Hsetup Hupper Hlower run sensitivity. subst run.
  unfold BuildAlgorithm. run_monad. rewrite Hsetup. run_monad.
  rewrite Hupper, Hlower. cbn [andb]. unfold CheckLowerBound.
  destruct (T_ltb (builder_lower_ b') (T_neg T_max_limit)); run_monad.
  - done.
  - destruct (Builder_Build _) as [mechanism|c msg]; run_monad; reflexivity.
Qed.

(** C7: [CheckLowerBound] fails, with an invalid-argument error, exactly
    on a lower bound [L] with [L < -1 * max(T)].  The builder applies it to
    a manually supplied lower bound (both bounds given), and on a failure
    returns that error without having built a mechanism, while on a pass
    it goes on to build one; [GenerateResult] applies the same check to
    the lower bound the histogram inferred, and on a failure returns that
    error, after the one call to the histogram. *)
Theorem lower_bound_check :
  (forall lower : T,
     (T_ltb lower (T_neg T_max_limit) = true ->
      exists msg, CheckLowerBound lower = InvalidArgumentError msg)
     /\ (T_ltb lower (T_neg T_max_limit) = false ->
         CheckLowerBound lower = OkStatus))
  /\ (forall BoundsSetup b b',
        BoundsSetup b = (OkStatus, b') ->
        builder_has_upper_ b' = true ->
        builder_has_lower_ b' = true ->
        let run := BuildAlgorithm BoundsSetup b in
        (Status_ok (CheckLowerBound (builder_lower_ b')) = false ->
         StatusOr_status (returned run) = CheckLowerBound (builder_lower_ b')
         /\ calls run = [])
        /\ (Status_ok (CheckLowerBound (builder_lower_ b')) = true ->
            exists epsilon sensitivity,
              calls run = [Call_Builder_Build epsilon sensitivity]))
  /\ (forall bs ab (privacy_budget : float) bounds ab',
        approx_bounds_ bs = Some ab ->
        DCHECK_GT privacy_budget 0 = true ->
        PrimFloat.eqb privacy_budget 0 = false ->
        ApproxBounds_GenerateResult ab (privacy_budget / 2)%float
        = (StatusValue bounds, ab') ->
        let lower := T_GetValue (Output_element_value bounds 0) in
        Status_ok (CheckLowerBound lower) = false ->
        exists run,
          GenerateResult privacy_budget bs = Completed run
          /\ StatusOr_status (returned run) = CheckLowerBound lower
          /\ calls run
             = [Call_ApproxBounds_GenerateResult (privacy_budget / 2)%float]).
Proof.
  split; [|split].
  - intros lower. unfold CheckLowerBound. split; intros ->; eauto.
  - intros BoundsSetup b b' Hsetup Hupper Hlower run.
    pose proof (BuildAlgorithm_checks_lower_bound BoundsSetup b b'
                  Hsetup Hupper Hlower) as Hrun.
    cbv zeta in Hrun. fold run in Hrun. unfold CheckLowerBound.
    destruct (T_ltb (builder_lower_ b') (T_neg T_max_limit)); cbn.
    + destruct Hrun as (-> & _ & ->). split; [done|discriminate].
    + split; [discriminate|eauto].
  - intros bs ab privacy_budget bounds ab' Hauto Hcheck Hbudget Hbounds lower
           Hfails.
    apply CheckLowerBound_fails_iff in Hfails.
    exists (GenerateResult_after_check privacy_budget bs).
    unfold GenerateResult. rewrite Hcheck.
    rewrite (GenerateResult_auto_bad_lower bs ab _ bounds ab') by done.
    cbn [returned calls StatusOr_status]. unfold CheckLowerBound.
    fold lower in Hfails. rewrite Hfails. done.
Qed.

(** ** Merge *)

(** The indexed loop of [Merge] adds the two sequences position by
    position. *)
Lemma add_values_loop (values : list ValueType) n : forall (sums : list T) k j,
  foldl
    (fun acc i =>
       alter
         (fun s => T_add s (T_GetValue (default ValueNotSet (values !! i))))
         i acc)
    sums (seq k n) !! j
  = if bool_decide (k <= j < k + n)%nat
    then (fun s => T_add s (T_GetValue (default ValueNotSet (values !! j))))
           <$> sums !! j
    else sums !! j.
Proof.
  induction n as [|n IH]; intros sums k j.
  - cbn [seq foldl]. rewrite bool_decide_eq_false_2 by lia. reflexivity.
  - cbn [seq foldl]. rewrite IH.
    destruct (decide (j = k)) as [->|Hjk].
    + rewrite bool_decide_eq_false_2 by lia.
      rewrite bool_decide_eq_true_2 by lia.
      apply list_lookup_alter_eq.
    + rewrite list_lookup_alter_ne by done.
      destruct (decide (k <= j < k + S n)%nat).
      * rewrite !bool_decide_eq_true_2 by lia. reflexivity.
      * rewrite !bool_decide_eq_false_2 by lia. reflexivity.
Qed.

Lemma add_values_zip_with (sums : list T) (values : list ValueType) :
  length sums = length values ->
  add_values sums values
  = zip_with (fun s v => T_add s (T_GetValue v)) sums values.
Proof.
  intros Hlen. apply list_eq. intros j. unfold add_values.
  rewrite add_values_loop, lookup_zip_with.
  destruct (sums !! j) as [s|] eqn:Hs.
  - pose proof (lookup_lt_Some _ _ _ Hs) as Hj.
    rewrite bool_decide_eq_true_2 by lia.
    destruct (lookup_lt_is_Some_2 values j ltac:(lia)) as [v Hv].
    rewrite Hv. reflexivity.
  - now destruct (bool_decide _).
Qed.

(** The state a merge leaves once the payload has passed the three checks
    of [Merge] itself: the sums added position by position, and then the
    histogram's own merge, with the histogram's status. *)
Lemma Merge_validated summary bs_summary bs :
  data summary = Some (Any_BoundedSumSummary bs_summary) ->
  length (pos_sum_ bs) = length (bss_pos_sum bs_summary) ->
  length (neg_sum_ bs) = length (bss_neg_sum bs_summary) ->
  let added :=
    set_neg_sum
      (zip_with (fun s v => T_add s (T_GetValue v))
                (neg_sum_ bs) (bss_neg_sum bs_summary))
      (set_pos_sum
         (zip_with (fun s v => T_add s (T_GetValue v))
                   (pos_sum_ bs) (bss_pos_sum bs_summary))
         bs) in
  Merge summary bs
  = match approx_bounds_ bs with
    | Some ab =>
        let merged :=
          ApproxBounds_Merge ab
            {| data :=
                 Some (Any_ApproxBoundsSummary
                         (default ApproxBoundsSummary_default
                                  (bss_bounds_summary bs_summary))) |} in
        (fst merged, set_approx_bounds (Some (snd merged)) added)
    | None => (OkStatus, added)
    end.
Proof.
  intros Hdata Hpos Hneg added. subst added. unfold Merge. rewrite Hdata.
  rewrite Hpos, Hneg, !Nat.eqb_refl. cbn [negb orb].
  cbn [approx_bounds_ set_neg_sum set_pos_sum neg_sum_ pos_sum_].
  rewrite !add_values_zip_with by done.
  destruct (approx_bounds_ bs) as [ab|]; [|reflexivity].
  now destruct (ApproxBounds_Merge _ _).
Qed.

Lemma Merge_not_validated summary bs :
  Merge_validates summary bs = false ->
  Status_ok (fst (Merge summary bs)) = false /\ snd (Merge summary bs) = bs.
Proof.
  unfold Merge_validates, Merge.
  destruct (data summary) as [[bs_summary|m|url]|]; try done.
  intros Hlen.
  destruct (length (pos_sum_ bs) =? length (bss_pos_sum bs_summary))%nat;
    [destruct (length (neg_sum_ bs) =? length (bss_neg_sum bs_summary))%nat|];
    done.
Qed.

Lemma Merge_validated_status summary bs :
  Merge_validates summary bs = true ->
  fst (Merge summary bs)
  = match approx_bounds_ bs, data summary with
    | Some ab, Some (Any_BoundedSumSummary bs_summary) =>
        fst (ApproxBounds_Merge ab
               {| data :=
                    Some (Any_ApproxBoundsSummary
                            (default ApproxBoundsSummary_default
                                     (bss_bounds_summary bs_summary))) |})
    | _, _ => OkStatus
    end.
Proof.
  unfold Merge_validates.
  destruct (data summary) as [[bs_summary|m|url]|] eqn:Hdata; try done.
  intros [Hpos Hneg]%andb_prop.
  apply Nat.eqb_eq in Hpos, Hneg.
  rewrite (Merge_validated summary bs_summary bs) by done.
  now destruct (approx_bounds_ bs).
Qed.


(** C10, as the code has it: the status of [Merge] is decided by the
    three checks of the payload — it carries data, the data decodes as a
    bounded-sum summary, the lengths agree — and, with inferred bounds,
    by the histogram's own merge of the embedded summary, whose status
    [Merge] returns; the instance's bounds, epsilon, mechanism and
    mechanism builder
    are never looked at, so two instances that agree on their partial sums
    and histogram get the same status and the same sums from the same
    payload.  In particular the payload of a manual-bounds accumulator is
    merged, with status OK, into any other manual-bounds accumulator,
    whatever the bounds and epsilon of the two. *)
Theorem Merge_checks_only_the_payload :
  (forall summary bs,
     Status_ok (fst (Merge summary bs))
     = Merge_validates summary bs
       && match approx_bounds_ bs, data summary with
          | Some ab, Some (Any_BoundedSumSummary bs_summary) =>
              Status_ok
                (fst (ApproxBounds_Merge ab
                        {| data :=
                             Some (Any_ApproxBoundsSummary
                                     (default ApproxBoundsSummary_default
                                        (bss_bounds_summary bs_summary))) |}))
          | _, _ => true
          end)
  /\ (forall summary bs1 bs2,
        pos_sum_ bs1 = pos_sum_ bs2 ->
        neg_sum_ bs1 = neg_sum_ bs2 ->
        approx_bounds_ bs1 = approx_bounds_ bs2 ->
        fst (Merge summary bs1) = fst (Merge summary bs2)
        /\ pos_sum_ (snd (Merge summary bs1)) = pos_sum_ (snd (Merge summary bs2))
        /\ neg_sum_ (snd (Merge summary bs1)) = neg_sum_ (snd (Merge summary bs2))
        /\ approx_bounds_ (snd (Merge summary bs1))
           = approx_bounds_ (snd (Merge summary bs2)))
  /\ (forall epsilon lower upper builder mechanism
             epsilon' lower' upper' builder' mechanism' ts ts',
        let target :=
          AddEntries ts
            (new_BoundedSum epsilon lower upper builder mechanism None) in
        let source :=
          AddEntries ts'
            (new_BoundedSum epsilon' lower' upper' builder' mechanism' None) in
        fst (Merge (Serialize source) target) = OkStatus).
Proof.
  split; [|split].
  - intros summary bs.
    destruct (Merge_validates summary bs) eqn:Hvalid.
    + rewrite Merge_validated_status by done. cbn [andb].
      destruct (approx_bounds_ bs) as [ab|]; [|done].
      now destruct (data summary) as [[bs_summary|m|url]|].
    + now destruct (Merge_not_validated summary bs Hvalid) as [-> _].
  - intros summary [p1 n1 l1 u1 e1 b1 m1 a1] [p2 n2 l2 u2 e2 b2 m2 a2].
    cbn [pos_sum_ neg_sum_ approx_bounds_]. intros -> -> ->.
    unfold Merge. cbn [pos_sum_ neg_sum_].
    destruct (data summary) as [[bs_summary|m|url]|]; try done.
    destruct (negb _ || negb _); [done|].
    cbn [approx_bounds_ set_neg_sum set_pos_sum neg_sum_ pos_sum_].
    destruct a2 as [ab|]; [|done].
    now destruct (ApproxBounds_Merge _ _).
  - intros epsilon lower upper builder mechanism
           epsilon' lower' upper' builder' mechanism' ts ts' target source.
    subst target source.
    rewrite !(AddEntries_manual _ _ T_zero) by reflexivity.
    reflexivity.
Qed.

(** ** Serialize and Merge *)

Section Commutative.

Context {CA : CommutativeAddition T}.

Lemma zip_with_add_serialized (sums values : list T) :
  zip_with (fun s v => T_add s (T_GetValue v)) sums (map T_SetValue values)
  = zip_with T_add sums values.
Proof.
  revert values. induction sums as [|s sums IH]; intros [|v values];
    cbn [map zip_with]; try reflexivity.
  now rewrite T_GetValue_SetValue, IH.
Qed.

Lemma zip_with_add_zeros (values : list T) :
  Forall (fun v => T_add T_zero v = v) values ->
  zip_with T_add (replicate (length values) T_zero) values = values.
Proof.
  induction 1 as [|v values Hv _ IH]; cbn [length replicate zip_with].
  - reflexivity.
  - now rewrite Hv, IH.
Qed.

Lemma zip_with_add_comm (l k : list T) :
  zip_with T_add l k = zip_with T_add k l.
Proof.
  revert k. induction l as [|x l IH]; intros [|y k]; cbn [zip_with];
    try reflexivity.
  now rewrite T_add_comm, IH.
Qed.

(** The payload of [source] passes the checks of an instance with partial
    sums of the same lengths. *)
Lemma Merge_Serialize source target :
  length (pos_sum_ target) = length (pos_sum_ source) ->
  length (neg_sum_ target) = length (neg_sum_ source) ->
  let added :=
    set_neg_sum (zip_with T_add (neg_sum_ target) (neg_sum_ source))
      (set_pos_sum (zip_with T_add (pos_sum_ target) (pos_sum_ source))
         target) in
  Merge (Serialize source) target
  = match approx_bounds_ target with
    | Some ab =>
        let merged :=
          ApproxBounds_Merge ab
            {| data :=
                 Some (Any_ApproxBoundsSummary
                         (default ApproxBoundsSummary_default
                            (bss_bounds_summary
                               {| bss_pos_sum := map T_SetValue (pos_sum_ source);
                                  bss_neg_sum := map T_SetValue (neg_sum_ source);
                                  bss_bounds_summary :=
                                    match approx_bounds_ source with
                                    | Some ab' =>
                                        Some
                                          match data (ApproxBounds_Serialize ab') with
                                          | Some (Any_ApproxBoundsSummary m) => m
                                          | _ => ApproxBoundsSummary_default
                                          end
                                    | None => None
                                    end |}))) |} in
        (fst merged, set_approx_bounds (Some (snd merged)) added)
    | None => (OkStatus, added)
    end.
Proof.
  intros Hpos Hneg added.
  rewrite (Merge_validated (Serialize source) _ target eq_refl);
    cbn [bss_pos_sum bss_neg_sum]; rewrite ?length_map; try done.
  rewrite !zip_with_add_serialized. reflexivity.
Qed.

(** C5: for an instance [x] and a zeroed instance of the same
    configuration (all partial sums zero, as many as [x] has, and with
    inferred bounds a histogram into which the payload of [x]'s histogram
    merges back to the same payload), merging [Serialize x] into the
    zeroed instance succeeds, and serialising the result gives
    [Serialize x] again: [pos_sum], [neg_sum] and the embedded histogram
    payload.  The partial sums of [x] are sums that adding to zero leaves
    as they are: every [int64_t], every [double] but the negative zero
    (which no sum that started at zero is). *)
Theorem Serialize_Merge_roundtrip x zeroed :
  pos_sum_ zeroed = replicate (length (pos_sum_ x)) T_zero ->
  neg_sum_ zeroed = replicate (length (neg_sum_ x)) T_zero ->
  Forall (fun v => T_add T_zero v = v) (pos_sum_ x) ->
  Forall (fun v => T_add T_zero v = v) (neg_sum_ x) ->
  match approx_bounds_ x, approx_bounds_ zeroed with
  | None, None => True
  | Some ab, Some ab0 =>
      exists m ab1,
        ApproxBounds_Serialize ab = {| data := Some (Any_ApproxBoundsSummary m) |}
        /\ ApproxBounds_Merge ab0 (ApproxBounds_Serialize ab) = (OkStatus, ab1)
        /\ ApproxBounds_Serialize ab1 = ApproxBounds_Serialize ab
  | _, _ => False
  end ->
  fst (Merge (Serialize x) zeroed) = OkStatus
  /\ Serialize (snd (Merge (Serialize x) zeroed)) = Serialize x.
Proof.
  intros Hpos Hneg Hvpos Hvneg Hhist.
  rewrite Merge_Serialize
    by (rewrite ?Hpos, ?Hneg; now rewrite length_replicate).
  rewrite Hpos, Hneg, !zip_with_add_zeros by done.
  destruct (approx_bounds_ x) as [ab|] eqn:Hx,
           (approx_bounds_ zeroed) as [ab0|] eqn:Hz; try done.
  - destruct Hhist as (m & ab1 & Hser & Hmerge & Hback).
    cbn [bss_bounds_summary default]. rewrite Hser. cbn [data]. unfold id.
    rewrite <- Hser, Hmerge. cbn [fst snd]. split; [reflexivity|].
    unfold Serialize.
    cbn [approx_bounds_ set_approx_bounds set_neg_sum set_pos_sum
         pos_sum_ neg_sum_].
    now rewrite Hx, Hback.
  - split; [reflexivity|]. unfold Serialize.
    cbn [approx_bounds_ set_neg_sum set_pos_sum pos_sum_ neg_sum_ snd].
    now rewrite Hx, Hz.
Qed.

Section Exact.

Context {EA : ExactAddition T}.

(** Sums of values, in [T]'s addition. *)
Lemma foldl_add_value (cs : list T) : forall s,
  T_value s -> T_value (foldl T_add s cs).
Proof.
  induction cs as [|c cs IH]; intros s Hs; cbn [foldl]; [done|].
  apply IH, T_value_add.
Qed.

Lemma foldl_add_from (cs : list T) : forall s,
  T_value s -> Forall T_value cs ->
  foldl T_add s cs = T_add s (foldl T_add T_zero cs).
Proof.
  induction cs as [|c cs IH]; intros s Hs Hcs; cbn [foldl].
  - now rewrite T_add_comm, T_add_zero_l.
  - inversion Hcs as [|? ? Hc Hcs']; subst.
    rewrite IH by (done || apply T_value_add).
    rewrite (IH (T_add T_zero c)) by (done || apply T_value_add).
    now rewrite T_add_zero_l, T_add_assoc.
Qed.

Lemma Clamp_value (low high value : T) :
  T_value low -> T_value high -> T_value value ->
  T_value (Clamp low high value).
Proof.
  intros Hl Hh Hv. unfold Clamp.
  destruct (T_ltb high value); [done|]. now destruct (T_ltb value low).
Qed.

Lemma clamped_values (lower upper : T) ts :
  T_value lower -> T_value upper -> Forall T_value ts ->
  Forall T_value
    (map (Clamp lower upper) (List.filter (fun t => negb (T_isnan t)) ts)).
Proof.
  intros Hl Hu Hts. apply Forall_forall. intros c Hc.
  apply list_elem_of_In, in_map_iff in Hc as (t & <- & Ht).
  apply filter_In in Ht as [Ht _].
  apply Clamp_value; try done.
  rewrite Forall_forall in Hts. now apply Hts, list_elem_of_In.
Qed.

(** Two manual-bounds shards of one configuration, merged, are the
    accumulator that was fed the entries of both. *)
Lemma Merge_shards epsilon lower upper builder mechanism ts_a ts_b :
  T_value lower -> T_value upper ->
  Forall T_value ts_a -> Forall T_value ts_b ->
  let fresh := new_BoundedSum epsilon lower upper builder mechanism None in
  Merge (Serialize (AddEntries ts_b fresh)) (AddEntries ts_a fresh)
  = (OkStatus, AddEntries (ts_a ++ ts_b)%list fresh).
Proof.
  intros Hl Hu Ha Hb fresh.
  subst fresh. rewrite !(AddEntries_manual _ _ T_zero) by reflexivity.
  rewrite Merge_Serialize by reflexivity.
  cbn [approx_bounds_ pos_sum_ neg_sum_ set_pos_sum set_neg_sum
       new_BoundedSum lower_ upper_ zip_with].
  rewrite List.filter_app, map_app, foldl_app.
  rewrite (foldl_add_from _ (foldl T_add T_zero _))
    by (apply foldl_add_value, T_value_zero || now apply clamped_values).
  reflexivity.
Qed.

End Exact.

(** C6, as the code has it: a merge adds the source's partial sums to the
    target's position by position, so merging is commutative on the
    partial sums, for integer and floating point [T] alike; and where
    [T]'s addition is exact (the integer instantiations), merging the
    payload of one manual-bounds shard into another of the same
    configuration leaves exactly the accumulator that was fed the entries
    of both. *)
Theorem Merge_adds_partial_sums :
  (forall a b,
     length (pos_sum_ a) = length (pos_sum_ b) ->
     length (neg_sum_ a) = length (neg_sum_ b) ->
     let a_b := snd (Merge (Serialize b) a) in
     let b_a := snd (Merge (Serialize a) b) in
     pos_sum_ a_b = zip_with T_add (pos_sum_ a) (pos_sum_ b)
     /\ neg_sum_ a_b = zip_with T_add (neg_sum_ a) (neg_sum_ b)
     /\ pos_sum_ a_b = pos_sum_ b_a
     /\ neg_sum_ a_b = neg_sum_ b_a)
  /\ (forall (EA : ExactAddition T)
             epsilon lower upper builder mechanism ts_a ts_b,
        T_value lower -> T_value upper ->
        Forall T_value ts_a -> Forall T_value ts_b ->
        let fresh :=
          new_BoundedSum epsilon lower upper builder mechanism None in
        Merge (Serialize (AddEntries ts_b fresh)) (AddEntries ts_a fresh)
        = (OkStatus, AddEntries (ts_a ++ ts_b)%list fresh)).
Proof.
  split.
  - intros a b Hpos Hneg a_b b_a. subst a_b b_a.
    rewrite (Merge_Serialize b a), (Merge_Serialize a b) by done.
    destruct (approx_bounds_ a), (approx_bounds_ b);
      cbn [snd pos_sum_ neg_sum_ set_approx_bounds set_neg_sum set_pos_sum];
      repeat split; apply zip_with_add_comm.
  - intros EA. apply Merge_shards.
Qed.

End Commutative.

End Properties.

(* ===================================================================== *)
(** * Further properties of the methods *)
(* ===================================================================== *)

Section Lifecycle.

Context {T : Type} {NT : Numeric T} {AB : ApproxBoundsLib T}
        {LM : LaplaceMechanismLib} {PF : Platform}.

Implicit Types (bs : BoundedSum) (t : T) (ts : list T).

(** What every run of [GenerateResult] leaves alone: the partial sums and
    epsilon, and under manual bounds the bounds and the mode as well. *)
Lemma GenerateResult_keeps_sums bs (privacy_budget : float) :
  let run := GenerateResult_after_check privacy_budget bs in
  pos_sum_ (final run) = pos_sum_ bs
  /\ neg_sum_ (final run) = neg_sum_ bs
  /\ epsilon_ (final run) = epsilon_ bs
  /\ (is_Some (approx_bounds_ (final run)) <-> is_Some (approx_bounds_ bs))
  /\ (approx_bounds_ bs = None ->
      lower_ (final run) = lower_ bs /\ upper_ (final run) = upper_ bs).
Proof.
  cbv zeta.
  destruct (PrimFloat.eqb privacy_budget 0) eqn:Hbudget.
  { unfold GenerateResult_after_check. rewrite Hbudget. done. }
  destruct (approx_bounds_ bs) as [ab|] eqn:Hmode.
  - destruct (ApproxBounds_GenerateResult ab (privacy_budget / 2)%float)
      as [[bounds|c msg] ab'] eqn:Hbounds.
    2:{ rewrite (GenerateResult_auto_no_bounds bs ab _ c msg ab') by done.
        cbn [final pos_sum_ neg_sum_ epsilon_ approx_bounds_ set_approx_bounds].
        repeat split; try done; intros _; by eexists. }
    destruct (T_ltb (T_GetValue (Output_element_value bounds 0))
                    (T_neg T_max_limit)) eqn:Hlower.
    { rewrite (GenerateResult_auto_bad_lower bs ab _ bounds ab') by done.
      cbn [final pos_sum_ neg_sum_ epsilon_ approx_bounds_ set_approx_bounds].
      repeat split; try done; intros _; by eexists. }
    rewrite (GenerateResult_auto_run bs ab privacy_budget bounds ab') by done.
    destruct (Builder_Build _) as [m|c msg];
      cbn [final pos_sum_ neg_sum_ epsilon_ approx_bounds_ set_approx_bounds
           set_mechanism set_builder set_upper set_lower];
      repeat split; try done; intros _; by eexists.
  - rewrite GenerateResult_manual_full by done.
    destruct (mechanism_ bs) as [m|]; [|destruct (Builder_Build _)];
      cbn [final pos_sum_ neg_sum_ epsilon_ approx_bounds_ lower_ upper_
           set_mechanism set_builder];
      rewrite ?Hmode; repeat split; try done; intros [? [=]].
Qed.

(** X2: under manual bounds [GenerateResult] consumes nothing: the sum,
    the bounds, epsilon and the mode are after the call what they were
    before, so a second call noises the same sum again.  An output it
    returns holds one element, the noised sum (rounded first when [T] is
    integral), and no bounding report, and leaves a mechanism in place.
    With a mechanism already built the call cannot fail, builds nothing
    and leaves the mechanism builder alone. *)
Theorem GenerateResult_manual_keeps_state bs (privacy_budget : float) :
  approx_bounds_ bs = None ->
  DCHECK_GT privacy_budget 0 = true ->
  PrimFloat.eqb privacy_budget 0 = false ->
  let sum := T_to_double (default T_zero (pos_sum_ bs !! 0%nat)) in
  exists run,
    GenerateResult privacy_budget bs = Completed run
    /\ (pos_sum_ (final run) = pos_sum_ bs
        /\ neg_sum_ (final run) = neg_sum_ bs
        /\ lower_ (final run) = lower_ bs
        /\ upper_ (final run) = upper_ bs
        /\ epsilon_ (final run) = epsilon_ bs
        /\ approx_bounds_ (final run) = None)
    /\ (forall output,
          returned run = StatusValue output ->
          (exists m,
             (mechanism_ bs = Some m
              \/ mechanism_ bs = None
                 /\ Builder_Build
                      (Builder_SetSensitivity
                         (Builder_SetEpsilon (laplace_mechanism_builder_ bs)
                            (epsilon_ bs))
                         (T_to_double
                            (std_max (T_abs (lower_ bs))
                               (T_abs (upper_ bs)))))
                    = StatusValue m)
             /\ let noisy :=
                  fst (LaplaceMechanism_AddNoise m sum privacy_budget) in
                elements output
                = [T_SetValue
                     (T_of_double
                        (if T_is_integral then std_round noisy else noisy))])
          /\ Output_bounding_report output = None
          /\ is_Some (mechanism_ (final run)))
    /\ (is_Some (mechanism_ bs) ->
        StatusOr_ok (returned run) = true
        /\ calls run
           = [Call_NoiseConfidenceInterval kDefaultConfidenceLevel
                privacy_budget;
              Call_AddNoise sum privacy_budget]
        /\ laplace_mechanism_builder_ (final run)
           = laplace_mechanism_builder_ bs).
Proof.
  intros Hmanual Hcheck Hbudget sum.
  exists (GenerateResult_after_check privacy_budget bs).
  split; [unfold GenerateResult; now rewrite Hcheck|].
  split.
  { destruct (GenerateResult_keeps_sums bs privacy_budget)
      as (Hpos & Hneg & Heps & Hmode & Hbounds).
    destruct (Hbounds Hmanual) as [Hl Hu]. repeat split; try done.
    destruct (approx_bounds_ (final _)) as [ab|] eqn:Hfinal; [|done].
    destruct (proj1 Hmode (mk_is_Some _ _ eq_refl)) as [ab' Hab'].
    congruence. }
  rewrite GenerateResult_manual_full by done. fold sum.
  destruct (mechanism_ bs) as [m|] eqn:Hm.
  - cbn [returned final calls app mechanism_ set_mechanism
         laplace_mechanism_builder_].
    split; [|done].
    intros output [= <-].
    split; [exists m; split; [by left|]|split; [|by eexists]];
      destruct (LaplaceMechanism_NoiseConfidenceInterval _ _ _);
      reflexivity.
  - split; [|intros [? [=]]].
    destruct (Builder_Build _) as [m|c msg] eqn:Hbuild;
      cbn [returned final calls app mechanism_ set_mechanism]; [|done].
    intros output [= <-].
    split; [exists m; split; [by right|]|split; [|by eexists]];
      destruct (LaplaceMechanism_NoiseConfidenceInterval _ _ _);
      reflexivity.
Qed.

(** ** What the methods leave alone *)

Lemma add_values_length (sums : list T) (values : list ValueType) :
  length (add_values sums values) = length sums.
Proof.
  unfold add_values. generalize (seq 0 (length sums)) as indices.
  intros indices. revert sums.
  induction indices as [|i indices IH]; intros sums; [done|].
  cbn [foldl]. rewrite IH. apply length_alter.
Qed.

Lemma AddEntry_frame t bs :
  let bs' := AddEntry t bs in
  lower_ bs' = lower_ bs
  /\ upper_ bs' = upper_ bs
  /\ epsilon_ bs' = epsilon_ bs
  /\ laplace_mechanism_builder_ bs' = laplace_mechanism_builder_ bs
  /\ mechanism_ bs' = mechanism_ bs
  /\ (is_Some (approx_bounds_ bs') <-> is_Some (approx_bounds_ bs))
  /\ (approx_bounds_ bs = None ->
      length (pos_sum_ bs') = length (pos_sum_ bs)
      /\ neg_sum_ bs' = neg_sum_ bs).
Proof.
  cbv zeta. unfold AddEntry.
  destruct (T_isnan t); [done|].
  destruct (approx_bounds_ bs) as [ab|] eqn:Hmode.
  - destruct (T_leb T_zero t); cbn; rewrite ?Hmode;
      repeat split; try done; intros _; by eexists.
  - cbn. rewrite Hmode, length_alter. done.
Qed.

Lemma Merge_frame summary bs :
  let bs' := snd (Merge summary bs) in
  lower_ bs' = lower_ bs
  /\ upper_ bs' = upper_ bs
  /\ epsilon_ bs' = epsilon_ bs
  /\ laplace_mechanism_builder_ bs' = laplace_mechanism_builder_ bs
  /\ mechanism_ bs' = mechanism_ bs
  /\ (is_Some (approx_bounds_ bs') <-> is_Some (approx_bounds_ bs))
  /\ length (pos_sum_ bs') = length (pos_sum_ bs)
  /\ length (neg_sum_ bs') = length (neg_sum_ bs).
Proof.
  cbv zeta. unfold Merge.
  destruct (data summary) as [[bs_summary|m|url]|]; try done.
  destruct (negb _ || negb _); [done|].
  cbn [approx_bounds_ set_neg_sum set_pos_sum neg_sum_ pos_sum_].
  destruct (approx_bounds_ bs) as [ab|] eqn:Hmode.
  - destruct (ApproxBounds_Merge _ _) as [status ab'].
    cbn. rewrite !add_values_length.
    repeat split; try done; intros _; by eexists.
  - cbn. rewrite !add_values_length, Hmode. done.
Qed.

Lemma ResetState_frame bs :
  let bs' := ResetState bs in
  lower_ bs' = lower_ bs
  /\ upper_ bs' = upper_ bs
  /\ epsilon_ bs' = epsilon_ bs
  /\ laplace_mechanism_builder_ bs' = laplace_mechanism_builder_ bs
  /\ mechanism_ bs'
     = match approx_bounds_ bs with
        | Some _ => None
        | None => mechanism_ bs
        end
  /\ (is_Some (approx_bounds_ bs') <-> is_Some (approx_bounds_ bs))
  /\ pos_sum_ bs' = replicate (length (pos_sum_ bs)) T_zero
  /\ neg_sum_ bs' = replicate (length (neg_sum_ bs)) T_zero.
Proof.
  cbv zeta. unfold ResetState.
  cbn [approx_bounds_ set_neg_sum set_pos_sum neg_sum_ pos_sum_].
  destruct (approx_bounds_ bs) as [ab|] eqn:Hmode; cbn; rewrite ?Hmode;
    repeat split; try done; intros _; by eexists.
Qed.

Lemma NoiseConfidenceInterval_keeps_state bs
    (confidence_level privacy_budget : float) :
  final (NoiseConfidenceInterval confidence_level privacy_budget bs) = bs.
Proof.
  unfold NoiseConfidenceInterval, NoiseConfidenceIntervalImpl. run_monad.
  destruct (approx_bounds_ bs); run_monad; [reflexivity|].
  destruct (mechanism_ bs); run_monad; reflexivity.
Qed.

(** X3: only [GenerateResult] sets bounds or touches the mechanism
    builder.  [AddEntry] and [Merge] leave the bounds, epsilon, the
    mechanism builder and the mechanism as they are, in either mode and
    whatever the entry or the payload ([Merge] never adopts the bounds of
    the accumulator that was serialized); [ResetState] leaves the bounds,
    epsilon and the builder, zeroes the partial sums in place, and drops
    the mechanism exactly when the bounds are inferred;
    [NoiseConfidenceInterval] changes nothing at all. *)
Theorem mutators_keep_configuration t summary
    (confidence_level privacy_budget : float) bs :
  (lower_ (AddEntry t bs) = lower_ bs
   /\ upper_ (AddEntry t bs) = upper_ bs
   /\ epsilon_ (AddEntry t bs) = epsilon_ bs
   /\ laplace_mechanism_builder_ (AddEntry t bs)
      = laplace_mechanism_builder_ bs
   /\ mechanism_ (AddEntry t bs) = mechanism_ bs)
  /\ (lower_ (snd (Merge summary bs)) = lower_ bs
      /\ upper_ (snd (Merge summary bs)) = upper_ bs
      /\ epsilon_ (snd (Merge summary bs)) = epsilon_ bs
      /\ laplace_mechanism_builder_ (snd (Merge summary bs))
         = laplace_mechanism_builder_ bs
      /\ mechanism_ (snd (Merge summary bs)) = mechanism_ bs)
  /\ (lower_ (ResetState bs) = lower_ bs
      /\ upper_ (ResetState bs) = upper_ bs
      /\ epsilon_ (ResetState bs) = epsilon_ bs
      /\ laplace_mechanism_builder_ (ResetState bs)
         = laplace_mechanism_builder_ bs
      /\ mechanism_ (ResetState bs)
         = match approx_bounds_ bs with
        | Some _ => None
        | None => mechanism_ bs
        end
      /\ pos_sum_ (ResetState bs) = replicate (length (pos_sum_ bs)) T_zero
      /\ neg_sum_ (ResetState bs) = replicate (length (neg_sum_ bs)) T_zero)
  /\ final (NoiseConfidenceInterval confidence_level privacy_budget bs) = bs.
Proof.
  pose proof (AddEntry_frame t bs) as Hadd.
  pose proof (Merge_frame summary bs) as Hmerge.
  pose proof (ResetState_frame bs) as Hreset.
  cbv zeta in Hadd, Hmerge, Hreset.
  split; [tauto|]. split; [tauto|]. split; [tauto|].
  apply NoiseConfidenceInterval_keeps_state.
Qed.

(** One operation keeps epsilon and the mode, and under manual bounds the
    bounds and the sizes of the two vectors of partial sums. *)
Lemma apply_operation_keeps op bs bs' :
  apply_operation op bs = Some bs' ->
  epsilon_ bs' = epsilon_ bs
  /\ (is_Some (approx_bounds_ bs') <-> is_Some (approx_bounds_ bs))
  /\ (approx_bounds_ bs = None ->
      lower_ bs' = lower_ bs
      /\ upper_ bs' = upper_ bs
      /\ length (pos_sum_ bs') = length (pos_sum_ bs)
      /\ length (neg_sum_ bs') = length (neg_sum_ bs)).
Proof.
  destruct op as [t|summary| |privacy_budget|confidence_level privacy_budget];
    cbn [apply_operation].
  - intros [= <-]. pose proof (AddEntry_frame t bs) as Hadd.
    cbv zeta in Hadd. destruct Hadd as (? & ? & ? & _ & _ & ? & Hsums).
    split; [done|]. split; [done|]. intros Hnone.
    destruct (Hsums Hnone) as [? ->]. done.
  - intros [= <-]. pose proof (Merge_frame summary bs) as Hmerge.
    cbv zeta in Hmerge. tauto.
  - intros [= <-]. pose proof (ResetState_frame bs) as Hreset.
    cbv zeta in Hreset.
    destruct Hreset as (? & ? & ? & _ & _ & ? & Hpos & Hneg).
    rewrite Hpos, Hneg, !length_replicate. tauto.
  - unfold GenerateResult. destruct (DCHECK_GT _ _); [|done].
    intros [= <-].
    pose proof (GenerateResult_keeps_sums bs privacy_budget) as Hrun.
    cbv zeta in Hrun. destruct Hrun as (-> & -> & ? & ? & ?). tauto.
  - intros [= <-]. rewrite NoiseConfidenceInterval_keeps_state. tauto.
Qed.

(** X4: whatever sequence of public calls an accumulator goes through —
    entries, merges of any payload, resets, result generations that fail
    or succeed, confidence-interval queries — its epsilon and its mode
    (manual or inferred bounds) are those it was built with; and under
    manual bounds so are the two bounds and the sizes of [pos_sum_] and
    [neg_sum_], so that an accumulator built with manual bounds has one
    slot in [pos_sum_] and none in [neg_sum_] for ever: the [pos_sum_[0]]
    that [AddEntry] and [GenerateResult] index is always there. *)
Theorem operations_keep_configuration ops : forall bs bs',
  apply_operations ops bs = Some bs' ->
  epsilon_ bs' = epsilon_ bs
  /\ (is_Some (approx_bounds_ bs') <-> is_Some (approx_bounds_ bs))
  /\ (approx_bounds_ bs = None ->
      approx_bounds_ bs' = None
      /\ lower_ bs' = lower_ bs
      /\ upper_ bs' = upper_ bs
      /\ length (pos_sum_ bs') = length (pos_sum_ bs)
      /\ length (neg_sum_ bs') = length (neg_sum_ bs)).
Proof.
  induction ops as [|op ops IH]; intros bs bs'; cbn [apply_operations].
  - intros [= <-]. done.
  - destruct (apply_operation op bs) as [bs1|] eqn:Hop; [|done].
    intros Hops. apply apply_operation_keeps in Hop.
    destruct Hop as (Heps1 & Hmode1 & Hmanual1).
    destruct (IH _ _ Hops) as (Heps & Hmode & Hmanual).
    split; [congruence|]. split; [tauto|].
    intros Hnone.
    assert (Hnone1 : approx_bounds_ bs1 = None).
    { destruct (approx_bounds_ bs1) as [ab|] eqn:Hab; [|done].
      destruct (proj1 Hmode1 (mk_is_Some _ _ eq_refl)) as [ab' Hab'].
      congruence. }
    destruct (Hmanual1 Hnone) as (? & ? & ? & ?).
    destruct (Hmanual Hnone1) as (? & ? & ? & ? & ?).
    repeat split; congruence.
Qed.

(** ** Merging across the two modes *)

(** X5: the two modes never merge.  The constructor gives a manual-bounds
    accumulator one slot in [pos_sum_] and none in [neg_sum_], and an
    accumulator with inferred bounds as many slots in one as in the
    other; [Merge] compares both sizes, so the payload of an accumulator
    of either shape is rejected by an accumulator of the other shape, with
    the invalid-argument error on the number of partial sums, and the
    target is left as it was. *)
Theorem Merge_across_modes_rejected :
  (forall epsilon lower upper builder mechanism,
     let a := new_BoundedSum epsilon lower upper builder mechanism None in
     length (pos_sum_ a) = 1%nat /\ length (neg_sum_ a) = 0%nat)
  /\ (forall epsilon lower upper builder mechanism ab,
        let b :=
          new_BoundedSum epsilon lower upper builder mechanism (Some ab) in
        length (pos_sum_ b) = length (neg_sum_ b))
  /\ (forall a b,
        length (pos_sum_ a) = 1%nat ->
        length (neg_sum_ a) = 0%nat ->
        length (pos_sum_ b) = length (neg_sum_ b) ->
        let rejected :=
          InvalidArgumentError
            ("Merged BoundedSum must have the same amount of partial sum "
             ++ "values as this BoundedSum.") in
        Merge (Serialize a) b = (rejected, b)
        /\ Merge (Serialize b) a = (rejected, a)).
Proof.
  split; [done|]. split.
  { intros. cbn. now rewrite !length_replicate. }
  intros a b Hpos Hneg Hsame rejected. subst rejected.
  unfold Merge, Serialize. cbn [data bss_pos_sum bss_neg_sum].
  rewrite !length_map, Hpos, Hneg, Hsame.
  destruct (length (neg_sum_ b)) as [|[|n]]; done.
Qed.

(** X16: with inferred bounds the histogram's [Merge] is called last,
    after the two loops over the partial sums.  When the payload has
    passed the three checks of [Merge] and the histogram then refuses the
    embedded summary, [Merge] returns the histogram's error with the
    payload's values already added to [pos_sum_] and [neg_sum_]: this one
    error return, unlike the three before it, does not leave the
    accumulator as it was. *)
Theorem Merge_histogram_error_after_sums
    summary bs_summary bs ab c msg ab' :
  approx_bounds_ bs = Some ab ->
  data summary = Some (Any_BoundedSumSummary bs_summary) ->
  length (pos_sum_ bs) = length (bss_pos_sum bs_summary) ->
  length (neg_sum_ bs) = length (bss_neg_sum bs_summary) ->
  ApproxBounds_Merge ab
    {| data :=
         Some (Any_ApproxBoundsSummary
                 (default ApproxBoundsSummary_default
                    (bss_bounds_summary bs_summary))) |}
  = (ErrorStatus c msg, ab') ->
  Merge summary bs
  = (ErrorStatus c msg,
     set_approx_bounds (Some ab')
       (set_neg_sum
          (zip_with (fun s v => T_add s (T_GetValue v))
             (neg_sum_ bs) (bss_neg_sum bs_summary))
          (set_pos_sum
             (zip_with (fun s v => T_add s (T_GetValue v))
                (pos_sum_ bs) (bss_pos_sum bs_summary))
             bs))).
Proof.
  intros Hauto Hdata Hpos Hneg Hmerge.
  rewrite (Merge_validated summary bs_summary bs) by done.
  rewrite Hauto. cbv zeta. now rewrite Hmerge.
Qed.

(** ** Order of entries and of merges, where addition is exact *)

Section Order.

Context {CA : CommutativeAddition T} {EA : ExactAddition T}.

Lemma zip_with_add_swap (a b : list ValueType) : forall sums : list T,
  zip_with (fun s v => T_add s (T_GetValue v))
    (zip_with (fun s v => T_add s (T_GetValue v)) sums a) b
  = zip_with (fun s v => T_add s (T_GetValue v))
      (zip_with (fun s v => T_add s (T_GetValue v)) sums b) a.
Proof.
  revert b. induction a as [|x a IH]; intros [|y b] [|s sums];
    cbn [zip_with]; try reflexivity.
  rewrite IH. f_equal.
  rewrite <- !T_add_assoc. f_equal. apply T_add_comm.
Qed.

Lemma Merge_validated_sums summary bs_summary bs :
  data summary = Some (Any_BoundedSumSummary bs_summary) ->
  length (pos_sum_ bs) = length (bss_pos_sum bs_summary) ->
  length (neg_sum_ bs) = length (bss_neg_sum bs_summary) ->
  pos_sum_ (snd (Merge summary bs))
  = zip_with (fun s v => T_add s (T_GetValue v))
      (pos_sum_ bs) (bss_pos_sum bs_summary)
  /\ neg_sum_ (snd (Merge summary bs))
     = zip_with (fun s v => T_add s (T_GetValue v))
         (neg_sum_ bs) (bss_neg_sum bs_summary).
Proof.
  intros Hdata Hpos Hneg.
  rewrite (Merge_validated summary bs_summary bs) by done.
  now destruct (approx_bounds_ bs).
Qed.

(** X6: where [T]'s addition is exact, two payloads that pass the checks
    of [Merge] can be merged in either order: the partial sums are the
    same, and under manual bounds so is the whole accumulator, with
    status OK at each step. *)
Theorem Merge_order_irrelevant s1 s2 p1 p2 bs :
  data s1 = Some (Any_BoundedSumSummary p1) ->
  data s2 = Some (Any_BoundedSumSummary p2) ->
  length (pos_sum_ bs) = length (bss_pos_sum p1) ->
  length (neg_sum_ bs) = length (bss_neg_sum p1) ->
  length (pos_sum_ bs) = length (bss_pos_sum p2) ->
  length (neg_sum_ bs) = length (bss_neg_sum p2) ->
  let one_two := Merge s2 (snd (Merge s1 bs)) in
  let two_one := Merge s1 (snd (Merge s2 bs)) in
  pos_sum_ (snd one_two) = pos_sum_ (snd two_one)
  /\ neg_sum_ (snd one_two) = neg_sum_ (snd two_one)
  /\ (approx_bounds_ bs = None ->
      fst (Merge s1 bs) = OkStatus
      /\ fst one_two = OkStatus
      /\ one_two = two_one).
Proof.
  intros Hd1 Hd2 Hp1 Hn1 Hp2 Hn2 one_two two_one. subst one_two two_one.
  pose proof (Merge_frame s1 bs) as Hf1.
  pose proof (Merge_frame s2 bs) as Hf2.
  cbv zeta in Hf1, Hf2.
  destruct Hf1 as (_ & _ & _ & _ & _ & _ & Hlp1 & Hln1).
  destruct Hf2 as (_ & _ & _ & _ & _ & _ & Hlp2 & Hln2).
  destruct (Merge_validated_sums s1 p1 bs) as [Hs1p Hs1n]; try done.
  destruct (Merge_validated_sums s2 p2 bs) as [Hs2p Hs2n]; try done.
  destruct (Merge_validated_sums s2 p2 (snd (Merge s1 bs))) as [Hs12p Hs12n];
    try congruence.
  destruct (Merge_validated_sums s1 p1 (snd (Merge s2 bs))) as [Hs21p Hs21n];
    try congruence.
  assert (Hpos : pos_sum_ (snd (Merge s2 (snd (Merge s1 bs))))
                 = pos_sum_ (snd (Merge s1 (snd (Merge s2 bs))))).
  { rewrite Hs12p, Hs21p, Hs1p, Hs2p. apply zip_with_add_swap. }
  assert (Hneg : neg_sum_ (snd (Merge s2 (snd (Merge s1 bs))))
                 = neg_sum_ (snd (Merge s1 (snd (Merge s2 bs))))).
  { rewrite Hs12n, Hs21n, Hs1n, Hs2n. apply zip_with_add_swap. }
  split; [done|]. split; [done|].
  intros Hmanual.
  rewrite (Merge_validated s1 p1 bs), (Merge_validated s2 p2 bs) in * by done.
  rewrite Hmanual in *. cbn [fst snd] in *.
  rewrite (Merge_validated s2 p2), (Merge_validated s1 p1)
    by first [done
             |cbn [pos_sum_ neg_sum_ set_pos_sum set_neg_sum];
              rewrite length_zip_with; lia].
  cbn [approx_bounds_ set_pos_sum set_neg_sum pos_sum_ neg_sum_].
  rewrite Hmanual. cbn [fst].
  split; [done|]. split; [done|].
  unfold set_neg_sum, set_pos_sum.
  cbn [pos_sum_ neg_sum_ lower_ upper_ epsilon_ laplace_mechanism_builder_
       mechanism_ approx_bounds_].
  now rewrite (zip_with_add_swap (bss_pos_sum p1)),
              (zip_with_add_swap (bss_neg_sum p1)).
Qed.

Lemma foldl_add_permutation (cs cs' : list T) :
  Permutation cs cs' -> forall s, foldl T_add s cs = foldl T_add s cs'.
Proof.
  induction 1 as [|c cs cs' _ IH|c d cs|cs cs' cs'' _ IH1 _ IH2]; intros s;
    cbn [foldl].
  - reflexivity.
  - apply IH.
  - f_equal. rewrite <- !T_add_assoc. f_equal. apply T_add_comm.
  - now rewrite IH1.
Qed.

Lemma clamped_permutation (lower upper : T) ts ts' :
  Permutation ts ts' ->
  Permutation
    (map (Clamp lower upper) (List.filter (fun t => negb (T_isnan t)) ts))
    (map (Clamp lower upper) (List.filter (fun t => negb (T_isnan t)) ts')).
Proof.
  induction 1 as [|t ts ts' _ IH|t u ts|ts ts' ts'' _ IH1 _ IH2];
    cbn [List.filter].
  - constructor.
  - destruct (negb (T_isnan t)); cbn [map]; [now constructor|done].
  - destruct (negb (T_isnan t)), (negb (T_isnan u)); cbn [map];
      try reflexivity. constructor.
  - now rewrite IH1.
Qed.

(** X7: where [T]'s addition is exact, a manual-bounds accumulator does
    not depend on the order in which its entries arrive: two sequences
    that are permutations of each other leave the same accumulator (NaN
    entries among them are skipped wherever they stand). *)
Theorem AddEntries_order_irrelevant ts ts' bs s :
  approx_bounds_ bs = None ->
  pos_sum_ bs = [s] ->
  Permutation ts ts' ->
  AddEntries ts bs = AddEntries ts' bs.
Proof.
  intros Hmanual Hsum Hperm.
  rewrite !(AddEntries_manual _ bs s) by done.
  do 2 f_equal.
  now apply foldl_add_permutation, clamped_permutation.
Qed.

(** X8: where [T]'s addition is exact, the payload of an accumulator that
    has just been reset is neutral: merged into an accumulator with as
    many partial sums, all of them values of [T], it leaves [pos_sum_]
    and [neg_sum_] as they were, and under manual bounds the whole
    accumulator, with status OK. *)
Theorem Merge_of_reset_payload a b :
  length (pos_sum_ b) = length (pos_sum_ a) ->
  length (neg_sum_ b) = length (neg_sum_ a) ->
  Forall T_value (pos_sum_ b) ->
  Forall T_value (neg_sum_ b) ->
  pos_sum_ (snd (Merge (Serialize (ResetState a)) b)) = pos_sum_ b
  /\ neg_sum_ (snd (Merge (Serialize (ResetState a)) b)) = neg_sum_ b
  /\ (approx_bounds_ b = None ->
      Merge (Serialize (ResetState a)) b = (OkStatus, b)).
Proof.
  intros Hpos Hneg Hvpos Hvneg.
  pose proof (ResetState_frame a) as Hreset. cbv zeta in Hreset.
  destruct Hreset as (_ & _ & _ & _ & _ & _ & Hrpos & Hrneg).
  rewrite Merge_Serialize
    by (rewrite ?Hrpos, ?Hrneg, length_replicate; done).
  rewrite Hrpos, Hrneg, <- Hpos, <- Hneg.
  rewrite !(zip_with_add_comm _ (replicate _ _)).
  rewrite !zip_with_add_zeros
    by (eapply Forall_impl; [eassumption|apply T_add_zero_l]).
  destruct (approx_bounds_ b) as [ab|] eqn:Hmode; cbn [snd].
  - done.
  - split; [done|]. split; [done|]. intros _. f_equal.
    destruct b; cbn in *. now subst.
Qed.

End Order.

(** ** Accumulation under inferred bounds *)

Lemma AddEntry_inferred t bs ab :
  approx_bounds_ bs = Some ab -> T_isnan t = false ->
  let ab' := ApproxBounds_AddEntry ab t in
  AddEntry t bs
  = if T_leb T_zero t then
      set_pos_sum (ApproxBounds_AddToPartialSums ab' (pos_sum_ bs) t)
        (set_approx_bounds (Some ab') bs)
    else
      set_neg_sum (ApproxBounds_AddToPartialSums ab' (neg_sum_ bs) t)
        (set_approx_bounds (Some ab') bs).
Proof.
  intros Hauto Hnan. unfold AddEntry. now rewrite Hnan, Hauto.
Qed.

(** X9: under inferred bounds the entries reach the histogram as they
    are, never clamped to the current [lower_] and [upper_]: after any
    sequence of entries the histogram is the one that was given, first to
    last, exactly the entries that are not NaN.  An entry [t] with
    [0 <= t] changes [pos_sum_] only, any other entry [neg_sum_] only: a
    sequence without negative entries leaves [neg_sum_] as it was, one
    without non-negative entries leaves [pos_sum_]. *)
Theorem AddEntries_inferred_bounds ts : forall bs ab,
  approx_bounds_ bs = Some ab ->
  let seen := List.filter (fun t => negb (T_isnan t)) ts in
  approx_bounds_ (AddEntries ts bs)
  = Some (foldl ApproxBounds_AddEntry ab seen)
  /\ (Forall (fun t => T_leb T_zero t = true) seen ->
      neg_sum_ (AddEntries ts bs) = neg_sum_ bs)
  /\ (Forall (fun t => T_leb T_zero t = false) seen ->
      pos_sum_ (AddEntries ts bs) = pos_sum_ bs).
Proof.
  unfold AddEntries.
  induction ts as [|t ts IH]; intros bs ab Hauto; cbn [foldl List.filter].
  - done.
  - destruct (T_isnan t) eqn:Hnan; cbn [negb].
    + rewrite AddEntry_nan by done. now apply IH.
    + rewrite (AddEntry_inferred t bs ab) by done. cbv zeta.
      cbn [foldl].
      destruct (T_leb T_zero t) eqn:Hsign.
      * destruct (IH (set_pos_sum
                        (ApproxBounds_AddToPartialSums
                           (ApproxBounds_AddEntry ab t) (pos_sum_ bs) t)
                        (set_approx_bounds
                           (Some (ApproxBounds_AddEntry ab t)) bs))
                     (ApproxBounds_AddEntry ab t) eq_refl)
          as (Hhist & Hneg & Hpos).
        split; [exact Hhist|]. split.
        -- intros Hall. inversion Hall; subst. now rewrite Hneg.
        -- intros Hall. inversion Hall; subst. congruence.
      * destruct (IH (set_neg_sum
                        (ApproxBounds_AddToPartialSums
                           (ApproxBounds_AddEntry ab t) (neg_sum_ bs) t)
                        (set_approx_bounds
                           (Some (ApproxBounds_AddEntry ab t)) bs))
                     (ApproxBounds_AddEntry ab t) eq_refl)
          as (Hhist & Hneg & Hpos).
        split; [exact Hhist|]. split.
        -- intros Hall. inversion Hall; subst. congruence.
        -- intros Hall. inversion Hall; subst. now rewrite Hpos.
Qed.

(** ** GenerateResult under inferred bounds *)

(** X10: under inferred bounds, an output that [GenerateResult] returns
    holds one element and the histogram's bounding report for the bounds
    now in [lower_] and [upper_].  The element is the noised value
    (rounded first when [T] is integral) of the sum the histogram computes
    from the partial sums for those bounds, and the noise is that of the
    mechanism just built from the mechanism builder now in place.  The
    call leaves the partial sums as they were, the histogram as its own
    [GenerateResult] left it, and a mechanism in place. *)
Theorem GenerateResult_inferred_output
    bs ab (privacy_budget : float) bounds ab' run output :
  approx_bounds_ bs = Some ab ->
  PrimFloat.eqb privacy_budget 0 = false ->
  ApproxBounds_GenerateResult ab (privacy_budget / 2)%float
  = (StatusValue bounds, ab') ->
  GenerateResult privacy_budget bs = Completed run ->
  returned run = StatusValue output ->
  let sum :=
    T_to_double
      (ApproxBounds_ComputeFromPartials
         ab' (pos_sum_ bs) (neg_sum_ bs) (fun x => x)
         (lower_ (final run)) (upper_ (final run)) 0) in
  (exists m,
     Builder_Build (laplace_mechanism_builder_ (final run)) = StatusValue m
     /\ let noisy :=
          fst (LaplaceMechanism_AddNoise m sum
                 (privacy_budget - privacy_budget / 2)%float) in
        elements output
        = [T_SetValue
             (T_of_double (if T_is_integral then std_round noisy else noisy))])
  /\ Output_bounding_report output
     = Some (ApproxBounds_GetBoundingReport
               ab' (lower_ (final run)) (upper_ (final run)))
  /\ pos_sum_ (final run) = pos_sum_ bs
  /\ neg_sum_ (final run) = neg_sum_ bs
  /\ approx_bounds_ (final run) = Some ab'
  /\ is_Some (mechanism_ (final run)).
Proof.
  intros Hauto Hbudget Hbounds Hrun Hout.
  unfold GenerateResult in Hrun.
  destruct (DCHECK_GT privacy_budget 0); [|discriminate].
  injection Hrun as <-.
  destruct (T_ltb (T_GetValue (Output_element_value bounds 0))
                  (T_neg T_max_limit)) eqn:Hlower.
  { rewrite (GenerateResult_auto_bad_lower bs ab _ bounds ab') in Hout
      by done. discriminate. }
  revert Hout.
  rewrite (GenerateResult_auto_run bs ab privacy_budget bounds ab') by done.
  destruct (Builder_Build _) as [m|c msg] eqn:Hbuild;
    cbn [returned final]; [|discriminate].
  intros [= <-].
  cbn [lower_ upper_ pos_sum_ neg_sum_ approx_bounds_ mechanism_
       laplace_mechanism_builder_ set_mechanism set_builder set_upper
       set_lower set_approx_bounds].
  split; [exists m; split; [exact Hbuild|]|];
    destruct (LaplaceMechanism_NoiseConfidenceInterval _ _ _);
    repeat split; try reflexivity; by eexists.
Qed.

(** X11: a [GenerateResult] that fails under inferred bounds still leaves
    its mark.  In every case the histogram is the one its own
    [GenerateResult] left, and the partial sums are untouched.  If the
    failure is the histogram's or that of the lower-bound check, the
    bounds, the mechanism and the mechanism builder are as before; if it
    is the mechanism builder's, [lower_] and [upper_] already hold the new
    symmetrised bounds and the mechanism that was in place is gone. *)
Theorem GenerateResult_inferred_failure
    bs ab (privacy_budget : float) run c msg :
  approx_bounds_ bs = Some ab ->
  PrimFloat.eqb privacy_budget 0 = false ->
  GenerateResult privacy_budget bs = Completed run ->
  returned run = StatusError c msg ->
  let inferred := ApproxBounds_GenerateResult ab (privacy_budget / 2)%float in
  approx_bounds_ (final run) = Some (snd inferred)
  /\ pos_sum_ (final run) = pos_sum_ bs
  /\ neg_sum_ (final run) = neg_sum_ bs
  /\ ((calls run
       = [Call_ApproxBounds_GenerateResult (privacy_budget / 2)%float]
       /\ lower_ (final run) = lower_ bs
       /\ upper_ (final run) = upper_ bs
       /\ mechanism_ (final run) = mechanism_ bs
       /\ laplace_mechanism_builder_ (final run)
          = laplace_mechanism_builder_ bs)
      \/ (exists bounds,
            fst inferred = StatusValue bounds
            /\ let lower := T_GetValue (Output_element_value bounds 0) in
               let upper := T_GetValue (Output_element_value bounds 1) in
               CheckLowerBound lower = OkStatus
               /\ lower_ (final run) = std_min lower (T_neg upper)
               /\ upper_ (final run) = std_max upper (T_neg lower)
               /\ mechanism_ (final run) = None
               /\ Builder_Build (laplace_mechanism_builder_ (final run))
                  = StatusError c msg)).
Proof.
  intros Hauto Hbudget Hrun Herr inferred. subst inferred.
  unfold GenerateResult in Hrun.
  destruct (DCHECK_GT privacy_budget 0); [|discriminate].
  injection Hrun as <-.
  destruct (ApproxBounds_GenerateResult ab (privacy_budget / 2)%float)
    as [[bounds|c0 msg0] ab'] eqn:Hbounds; cbn [fst snd].
  2:{ rewrite (GenerateResult_auto_no_bounds bs ab _ c0 msg0 ab') by done.
      cbn. repeat split; try done. left. done. }
  destruct (T_ltb (T_GetValue (Output_element_value bounds 0))
                  (T_neg T_max_limit)) eqn:Hlower.
  { rewrite (GenerateResult_auto_bad_lower bs ab _ bounds ab') by done.
    cbn. repeat split; try done. left. done. }
  revert Herr.
  rewrite (GenerateResult_auto_run bs ab privacy_budget bounds ab') by done.
  destruct (Builder_Build _) as [m|c1 msg1] eqn:Hbuild;
    cbn [returned final]; [discriminate|].
  intros [= -> ->].
  cbn [lower_ upper_ pos_sum_ neg_sum_ approx_bounds_ mechanism_
       laplace_mechanism_builder_ set_mechanism set_builder set_upper
       set_lower set_approx_bounds].
  repeat split; try done. right. exists bounds.
  split; [done|]. cbv zeta. unfold CheckLowerBound. rewrite Hlower.
  repeat split; try done.
Qed.

(** ** The builder *)

(** The whole run of [BuildAlgorithm], by the status of [BoundsSetup],
    the bounds that are set, the check of the lower bound and the answer
    of the mechanism builder. *)
Lemma BuildAlgorithm_full
    (BoundsSetup : BoundedSum_Builder -> Status * BoundedSum_Builder)
    b status b' :
  BoundsSetup b = (status, b') ->
  let sensitivity :=
    T_to_double
      (std_max (T_abs (builder_lower_ b')) (T_abs (builder_upper_ b'))) in
  let builder :=
    Builder_SetSensitivity
      (Builder_SetEpsilon (builder_laplace_mechanism_builder_ b')
         (builder_epsilon_ b'))
      sensitivity in
  BuildAlgorithm BoundsSetup b
  = match status with
    | ErrorStatus c msg =>
        {| returned := StatusError c msg; final := b'; calls := [] |}
    | OkStatus =>
        if builder_has_upper_ b' && builder_has_lower_ b' then
          match CheckLowerBound (builder_lower_ b') with
          | ErrorStatus c msg =>
              {| returned := StatusError c msg; final := b'; calls := [] |}
          | OkStatus =>
              match Builder_Build builder with
              | StatusError c msg =>
                  {| returned := StatusError c msg;
                     final := builder_set_mechanism_builder builder b';
                     calls :=
                       [Call_Builder_Build (builder_epsilon_ b') sensitivity]
                  |}
              | StatusValue m =>
                  {| returned :=
                       StatusValue
                         (new_BoundedSum (builder_epsilon_ b')
                            (builder_lower_ b') (builder_upper_ b')
                            (Builder_Clone builder) (Some m)
                            (builder_approx_bounds_ b'));
                     final :=
                       builder_set_approx_bounds None
                         (builder_set_mechanism_builder builder b');
                     calls :=
                       [Call_Builder_Build (builder_epsilon_ b') sensitivity]
                  |}
              end
          end
        else
          {| returned :=
               StatusValue
                 (new_BoundedSum (builder_epsilon_ b')
                    (builder_lower_ b') (builder_upper_ b')
                    (Builder_Clone (builder_laplace_mechanism_builder_ b'))
                    None (builder_approx_bounds_ b'));
             final := builder_set_approx_bounds None b';
             calls := [] |}
    end.
Proof.
  intros Hsetup. cbv zeta. unfold BuildAlgorithm. run_monad.
  rewrite Hsetup. run_monad.
  destruct status as [|c msg]; run_monad; [|reflexivity].
  destruct (builder_has_upper_ b' && builder_has_lower_ b'); run_monad.
  - destruct (CheckLowerBound (builder_lower_ b')) as [|c msg]; run_monad;
      [|reflexivity].
    destruct (Builder_Build _) as [m|c msg]; run_monad; reflexivity.
  - reflexivity.
Qed.

(** X12: what [BuildAlgorithm] returns.  An error of [BoundsSetup] is
    returned as it is, before any check or build.  An accumulator that is
    returned has the builder's epsilon and bounds, the histogram the
    builder held — which the builder no longer holds —, all its partial
    sums at zero, and a mechanism exactly when both bounds were set, in
    which case the lower bound has passed [CheckLowerBound]; with a bound
    missing no mechanism is built and the builder is not asked. *)
Theorem BuildAlgorithm_result
    (BoundsSetup : BoundedSum_Builder -> Status * BoundedSum_Builder)
    b status b' :
  BoundsSetup b = (status, b') ->
  let run := BuildAlgorithm BoundsSetup b in
  (Status_ok status = false ->
   StatusOr_status (returned run) = status
   /\ final run = b'
   /\ calls run = [])
  /\ (forall bs,
        returned run = StatusValue bs ->
        status = OkStatus
        /\ epsilon_ bs = builder_epsilon_ b'
        /\ lower_ bs = builder_lower_ b'
        /\ upper_ bs = builder_upper_ b'
        /\ approx_bounds_ bs = builder_approx_bounds_ b'
        /\ builder_approx_bounds_ (final run) = None
        /\ Forall (fun s => s = T_zero) (pos_sum_ bs ++ neg_sum_ bs)
        /\ (if builder_has_upper_ b' && builder_has_lower_ b' then
              CheckLowerBound (builder_lower_ b') = OkStatus
              /\ (exists m,
                    mechanism_ bs = Some m
                    /\ Builder_Build
                         (builder_laplace_mechanism_builder_ (final run))
                       = StatusValue m)
              /\ exists sensitivity,
                   calls run
                   = [Call_Builder_Build (builder_epsilon_ b') sensitivity]
            else mechanism_ bs = None /\ calls run = [])).
Proof.
  intros Hsetup run. subst run.
  rewrite (BuildAlgorithm_full BoundsSetup b status b' Hsetup).
  assert (Hzeros : forall e l u mb m (oab : option ApproxBounds),
            Forall (fun s => s = T_zero)
              (pos_sum_ (new_BoundedSum e l u mb m oab)
               ++ neg_sum_ (new_BoundedSum e l u mb m oab))).
  { intros e l u mb m [ab0|]; cbn.
    - apply Forall_app; split; now apply Forall_replicate.
    - now constructor. }
  assert (Hmode : forall e l u mb m (oab : option ApproxBounds),
            approx_bounds_ (new_BoundedSum e l u mb m oab) = oab
            /\ epsilon_ (new_BoundedSum e l u mb m oab) = e
            /\ lower_ (new_BoundedSum e l u mb m oab) = l
            /\ upper_ (new_BoundedSum e l u mb m oab) = u
            /\ mechanism_ (new_BoundedSum e l u mb m oab) = m).
  { intros e l u mb m [ab0|]; done. }
  destruct status as [|c msg]; cbn [Status_ok].
  2:{ split; [done|]. intros bs [=]. }
  split; [done|]. intros bs.
  destruct (builder_has_upper_ b' && builder_has_lower_ b').
  - destruct (CheckLowerBound (builder_lower_ b')) as [|c msg];
      [|intros [=]].
    destruct (Builder_Build _) as [m|c msg] eqn:Hbuild; [|intros [=]].
    cbn [returned final calls]. intros [= <-].
    split; [done|]. split; [apply Hmode|]. split; [apply Hmode|].
    split; [apply Hmode|]. split; [apply Hmode|]. split; [reflexivity|].
    split; [apply Hzeros|]. split; [done|].
    split; [|by eexists].
    exists m. split; [apply Hmode|exact Hbuild].
  - cbn [returned final calls]. intros [= <-].
    split; [done|]. split; [apply Hmode|]. split; [apply Hmode|].
    split; [apply Hmode|]. split; [apply Hmode|]. split; [reflexivity|].
    split; [apply Hzeros|]. split; [apply Hmode|done].
Qed.

(** ** The mechanism of a manual-bounds accumulator *)





End Lifecycle.

(* ===================================================================== *)
(** * The bounds of an [int64_t] accumulator *)
(* ===================================================================== *)

Section Int64Bounds.

Context {AB : ApproxBoundsLib Z} {LM : LaplaceMechanismLib}.

Lemma Int64_neg_max_limit : Int64.neg Int64.max_int = - Int64.max_int.
Proof. reflexivity. Qed.


(** X14: for [T = int64_t] the check of the lower bound rejects one value
    only, [INT64_MIN], the one [int64_t] whose magnitude is not an
    [int64_t]. *)
Theorem Int64_CheckLowerBound (lower : Z) :
  Int64.in_range lower ->
  CheckLowerBound lower = OkStatus <-> lower <> Int64.min_int.
Proof.
  intros Hrange. unfold CheckLowerBound.
  cbn [T_ltb T_neg T_max_limit Int64.numeric].
  rewrite Int64_neg_max_limit.
  unfold Int64.in_range, Int64.min_int, Int64.max_int in *.
  destruct (Z.ltb_spec lower (- (2 ^ 63 - 1))); split; try done; lia.
Qed.


End Int64Bounds.

(* ===================================================================== *)
(** * The properties on concrete accumulators *)
(* ===================================================================== *)

(** The spec's example: manual bounds [[0, 10]], entries 3, 7, NaN and 15
    over [double] sum to 20, the 15 clamped to 10 and the NaN skipped, and
    a result generated with budget 1 is what the mechanism makes of 20:
    with a mechanism that draws zero noise, 20. *)
Lemma manual_bounds_sum_witness :
  let bs :=
    AddEntries [3; 7; PrimFloat.nan; 15]%float (Examples.manual_double 0 10) in
  pos_sum_ bs = [20%float]
  /\ exists run,
       @GenerateResult float _ _ _ optimised_build 1%float bs = Completed run
       /\ calls run
          = [Call_Builder_Build 1 10;
             Call_NoiseConfidenceInterval 0x1.e666666666666p-1 1;
             Call_AddNoise 20 1]%float
       /\ exists output,
            returned run = StatusValue output
            /\ elements output = [FloatValue 20]
            /\ mechanism_ (final run)
               = Some {| ZeroNoise.epsilon := 1;
                         ZeroNoise.sensitivity := 10;
                         ZeroNoise.draws := 1 |}.
Proof.
  intros bs.
  destruct
    (@manual_bounds_sum float Double.numeric PlainHistogram.double_lib
       ZeroNoise.lib optimised_build
       1%float 0%float 10%float ZeroNoise.fresh_builder None
       [3; 7; PrimFloat.nan; 15]%float 1%float eq_refl eq_refl)
    as (Hsum & _ & run & Hrun & Hcalls & Hnoise).
  split.
  - subst bs. unfold Examples.manual_double. now rewrite Hsum.
  - exists run. split; [exact Hrun|]. split; [exact (proj2 Hcalls)|].
    assert (Hreturned :
      match @GenerateResult float _ _ _ optimised_build 1%float bs with
      | Completed r => returned r
      | CheckFailed msg => StatusError kInternal msg
      end
      = StatusValue
          {| elements := [FloatValue 20];
             error_report :=
               Some {| noise_confidence_interval :=
                         Some {| ci_lower_bound := (-10)%float;
                                 ci_upper_bound := 10%float;
                                 ci_confidence_level :=
                                   0x1.e666666666666p-1%float |};
                       bounding_report := None |} |}) by reflexivity.
    subst bs. unfold Examples.manual_double in Hreturned.
    rewrite Hrun in Hreturned.
    destruct (Hnoise _ Hreturned) as (m & Hm & Helements & Hmechanism & _).
    injection Hm as <-.
    eexists. split; [exact Hreturned|]. split; [exact Helements|].
    exact Hmechanism.
Defined.

(** C1 as stated does not hold: the sum is accumulated in [T] and then
    converted to [double], so it is not the sum of the clamped entries
    where either step rounds.  With bounds [[0, 1e17]] over [double], the
    entries 1e16, 1, 1 leave 10000000000000000 in the accumulator (each
    1e16 + 1 rounds back to 1e16) and the same entries in the order 1, 1,
    1e16 leave 10000000000000002, their sum, which is a [double]; and
    over [int64_t] the one entry 9007199254740993 is held exactly but
    handed to the mechanism as the [double] 9007199254740992.  (The
    mechanism here draws zero noise: the output is the sum it was
    given.) *)
Lemma manual_bounds_sum_rounds :
  let early := AddEntries [1e16; 1; 1]%float (Examples.manual_double 0 1e17) in
  let late := AddEntries [1; 1; 1e16]%float (Examples.manual_double 0 1e17) in
  let wide :=
    AddEntries [9007199254740993] (Examples.manual_int64 0 (2 ^ 62)) in
  pos_sum_ early = [10000000000000000%float]
  /\ pos_sum_ late = [10000000000000002%float]
  /\ Int64.to_double (10000000000000000 + 1 + 1) = 10000000000000002%float
  /\ PrimFloat.eqb 10000000000000000 10000000000000002 = false
  /\ returned_elements
       (@GenerateResult float _ _ _ optimised_build 1%float early)
     = [FloatValue 10000000000000000]
  /\ returned_elements
       (@GenerateResult float _ _ _ optimised_build 1%float late)
     = [FloatValue 10000000000000002]
  /\ pos_sum_ wide = [9007199254740993]
  /\ returned_elements
       (@GenerateResult Z _ _ _ optimised_build 1%float wide)
     = [IntValue 9007199254740992].
Proof. repeat split. Qed.



(** In an optimised build a zero budget gives the default output. *)
Lemma GenerateResult_zero_budget_witness :
  @GenerateResult Z _ _ _ optimised_build 0%float
    (AddEntries [3; 7; 15] (Examples.manual_int64 0 10))
  = Completed
      {| returned := StatusValue Output_default;
         final := AddEntries [3; 7; 15] (Examples.manual_int64 0 10);
         calls := [] |}.
Proof.
  exact (@GenerateResult_zero_budget Z Int64.numeric PlainHistogram.int64_lib
           ZeroNoise.lib optimised_build
           (AddEntries [3; 7; 15] (Examples.manual_int64 0 10)) 0%float
           eq_refl eq_refl).
Defined.

(** C4 as stated does not hold: in a build with [DCHECK]s a zero budget
    stops at the [DCHECK_GT] and returns no output. *)
Lemma GenerateResult_zero_budget_debug_build :
  @GenerateResult Z _ _ _ debug_build 0%float
    (AddEntries [3; 7; 15] (Examples.manual_int64 0 10))
  = CheckFailed "Privacy budget should be greater than zero.".
Proof. reflexivity. Qed.

(** The payload of an accumulator with inferred bounds, merged into its
    reset copy, serialises to the same payload. *)
Lemma Serialize_Merge_roundtrip_witness :
  let x := AddEntries [3; 7; -15; 100] (Examples.auto_int64 8) in
  fst (Merge (Serialize x) (ResetState x)) = OkStatus
  /\ Serialize (snd (Merge (Serialize x) (ResetState x))) = Serialize x.
Proof.
  intros x.
  apply (@Serialize_Merge_roundtrip Z Int64.numeric PlainHistogram.int64_lib
           ZeroNoise.lib Int64_commutative_addition x (ResetState x)).
  - reflexivity.
  - reflexivity.
  - repeat constructor.
  - repeat constructor.
  - cbn. eexists _, _. repeat split.
Defined.

(** The spec's example: two shards with bounds [[-5, 5]], one fed 1 and 2,
    the other -4, merge into the accumulator of all three, which holds
    -1.  And over [double], the shard fed 1e16 and the shard fed 1 and 1
    hold the same sum whichever is merged into the other. *)
Lemma Merge_adds_partial_sums_witness :
  (let a := AddEntries [1; 2] (Examples.manual_int64 (-5) 5) in
   let b := AddEntries [-4] (Examples.manual_int64 (-5) 5) in
   Merge (Serialize b) a
   = (OkStatus, AddEntries [1; 2; -4] (Examples.manual_int64 (-5) 5))
   /\ pos_sum_ (snd (Merge (Serialize b) a)) = [-1])
  /\ (let a := AddEntries [1e16]%float (Examples.manual_double 0 1e17) in
      let b := AddEntries [1; 1]%float (Examples.manual_double 0 1e17) in
      pos_sum_ (snd (Merge (Serialize b) a))
      = pos_sum_ (snd (Merge (Serialize a) b))).
Proof.
  split.
  - intros a b.
    pose proof
      (proj2 (@Merge_adds_partial_sums Z Int64.numeric
                PlainHistogram.int64_lib ZeroNoise.lib
                Int64_commutative_addition)
         Int64_exact_addition 1%float (-5) 5 ZeroNoise.fresh_builder None
         [1; 2] [-4]
         ltac:(cbv; split; discriminate) ltac:(cbv; split; discriminate)
         ltac:(repeat constructor; cbv; discriminate)
         ltac:(repeat constructor; cbv; discriminate)) as Hmerge.
    split; [exact Hmerge|]. subst a b. unfold Examples.manual_int64.
    now rewrite Hmerge.
  - intros a b.
    exact (proj1 (proj2 (proj2
             (proj1 (@Merge_adds_partial_sums float Double.numeric
                       PlainHistogram.double_lib ZeroNoise.lib
                       Double_commutative_addition)
                a b eq_refl eq_refl)))).
Defined.

(** C6 as stated does not hold for [T = double]: with bounds [[0, 1e17]],
    the shard fed 1e16 merged with the shard fed 1 and 1 holds
    10000000000000002, the single accumulator fed all three holds
    10000000000000000 (1e16 + 1 rounds back to 1e16, twice). *)
Lemma Merge_double_shards_differ :
  let a := AddEntries [1e16]%float (Examples.manual_double 0 1e17) in
  let b := AddEntries [1; 1]%float (Examples.manual_double 0 1e17) in
  let single :=
    AddEntries [1e16; 1; 1]%float (Examples.manual_double 0 1e17) in
  fst (Merge (Serialize b) a) = OkStatus
  /\ pos_sum_ (snd (Merge (Serialize b) a)) = [10000000000000002%float]
  /\ pos_sum_ single = [10000000000000000%float]
  /\ PrimFloat.eqb 10000000000000002 10000000000000000 = false.
Proof. repeat split. Qed.

(** Over [int64_t] the check fails on the least value alone, in the
    builder before any mechanism is built, and in [GenerateResult] when
    the histogram infers it. *)
Lemma lower_bound_check_witness :
  (forall lower : Z,
     Status_ok (@CheckLowerBound Z Int64.numeric lower) = false
     <-> lower < - Int64.max_int)
  /\ (let run :=
        BuildAlgorithm Examples.BoundsSetup_accepts
          (Examples.builder_int64 Int64.min_int 10) in
      StatusOr_status (returned run) = CheckLowerBound Int64.min_int
      /\ calls run = [])
  /\ (exists run,
        @GenerateResult Z _ _ _ optimised_build 1%float
          (AddEntries [Int64.min_int] (Examples.auto_int64 64))
        = Completed run
        /\ StatusOr_status (returned run) = CheckLowerBound Int64.min_int
        /\ calls run = [Call_ApproxBounds_GenerateResult 0.5%float]).
Proof.
  pose proof
    (@lower_bound_check Z Int64.numeric PlainHistogram.int64_lib
       ZeroNoise.lib optimised_build) as (Hcheck & Hbuilder & Hresult).
  split; [|split].
  - intros lower. destruct (Hcheck lower) as [Hfails Hpasses].
    change (T_ltb lower (T_neg T_max_limit))
      with (lower <? Int64.neg Int64.max_int) in *.
    change (Int64.neg Int64.max_int) with (- Int64.max_int) in *.
    destruct (Z.ltb_spec lower (- Int64.max_int)) as [Hlt|Hge].
    + destruct (Hfails eq_refl) as [msg ->]. cbn. split; [done|done].
    + rewrite (Hpasses eq_refl). cbn. split; [discriminate|lia].
  - exact (proj1 (Hbuilder Examples.BoundsSetup_accepts
                    (Examples.builder_int64 Int64.min_int 10)
                    (Examples.builder_int64 Int64.min_int 10)
                    eq_refl eq_refl eq_refl)
                 eq_refl).
  - exact (Hresult (AddEntries [Int64.min_int] (Examples.auto_int64 64))
             _ 1%float _ _ eq_refl eq_refl eq_refl eq_refl eq_refl).
Defined.

(** With budget 1 the histogram is asked with 0.5, and the interval and
    the noise spend the other 0.5: the sum 95 reconstructed for the bounds
    -128 and 128 comes back from the zero-noise mechanism as 95. *)
Lemma auto_bounds_budget_split_witness :
  let bs := AddEntries [3; 7; -15; 100] (Examples.auto_int64 8) in
  let histogram :=
    {| PlainHistogram.pos_bins := [0; 0; 1; 1; 0; 0; 0; 1];
       PlainHistogram.neg_bins := [0; 0; 0; 0; 1; 0; 0; 0] |} in
  exists run,
    @GenerateResult Z _ _ _ optimised_build 1%float bs = Completed run
    /\ approx_bounds_ (final run)
       = Some (snd (@ApproxBounds_GenerateResult Z PlainHistogram.int64_lib
                      histogram 0.5%float))
    /\ calls run
       = [Call_ApproxBounds_GenerateResult 0.5%float;
          Call_ApproxBounds_ComputeFromPartials (-128) 128;
          Call_ApproxBounds_GetBoundingReport (-128) 128;
          Call_Builder_Build 1%float 128%float;
          Call_NoiseConfidenceInterval 0x1.e666666666666p-1%float 0.5%float;
          Call_AddNoise 95%float 0.5%float]
    /\ returned_elements
         (@GenerateResult Z _ _ _ optimised_build 1%float bs)
       = [IntValue 95].
Proof.
  intros bs histogram.
  assert (Hauto : approx_bounds_ bs = Some histogram) by reflexivity.
  destruct
    (@auto_bounds_budget_split Z Int64.numeric PlainHistogram.int64_lib
       ZeroNoise.lib optimised_build bs histogram 1%float Hauto eq_refl)
    as (run & Hrun & Hhistogram & _).
  exists run. split; [exact Hrun|]. split; [exact Hhistogram|].
  split; [|reflexivity].
  assert (Heval :
    match @GenerateResult Z _ _ _ optimised_build 1%float bs with
    | Completed r => calls r
    | CheckFailed _ => []
    end
    = [Call_ApproxBounds_GenerateResult 0.5%float;
       Call_ApproxBounds_ComputeFromPartials (-128) 128;
       Call_ApproxBounds_GetBoundingReport (-128) 128;
       Call_Builder_Build 1%float 128%float;
       Call_NoiseConfidenceInterval 0x1.e666666666666p-1%float 0.5%float;
       Call_AddNoise 95%float 0.5%float]) by reflexivity.
  rewrite Hrun in Heval. exact Heval.
Defined.

(** C9 as stated does not hold for every privacy budget: with a budget
    equal to 0 the call returns before the histogram is asked, so that
    nothing is inferred, no noise is added and no interval is attached;
    and where [DCHECK]s are compiled in, a budget that is not greater
    than 0 stops the call at its first line. *)
Lemma auto_bounds_budget_split_zero_budget :
  let bs := AddEntries [3; 7; -15; 100] (Examples.auto_int64 8) in
  @GenerateResult Z _ _ _ optimised_build 0%float bs
  = Completed
      {| returned := StatusValue Output_default; final := bs; calls := [] |}
  /\ @GenerateResult Z _ _ _ debug_build 0%float bs
     = CheckFailed "Privacy budget should be greater than zero."
  /\ @GenerateResult Z _ _ _ debug_build (-1)%float bs
     = CheckFailed "Privacy budget should be greater than zero.".
Proof. repeat split. Qed.

(** A shard clamping to [[-100, 100]] merges, with status OK, into an
    accumulator clamping to [[0, 10]]. *)
Lemma Merge_checks_only_the_payload_witness :
  fst (Merge
         (Serialize (AddEntries [50; -70] (Examples.manual_int64 (-100) 100)))
         (AddEntries [3; 7; 15] (Examples.manual_int64 0 10)))
  = OkStatus.
Proof.
  exact (proj2 (proj2 (@Merge_checks_only_the_payload Z Int64.numeric
                         PlainHistogram.int64_lib ZeroNoise.lib))
           1%float 0 10 ZeroNoise.fresh_builder None
           1%float (-100) 100 ZeroNoise.fresh_builder None
           [3; 7; 15] [50; -70]).
Defined.

(** C10 as stated does not hold: the three checks are not all that
    decides.  An accumulator with inferred bounds hands the embedded
    histogram summary to the histogram's own [Merge] and returns its
    status: a payload with two partial sums a side and no histogram
    summary passes the three checks of an accumulator with two bins a
    side, and is rejected. *)
Lemma Merge_histogram_rejects_checked_payload :
  let bs := Examples.auto_int64 2 in
  Merge_validates Examples.payload_without_histogram bs = true
  /\ fst (Merge Examples.payload_without_histogram bs)
     = InvalidArgumentError
         "Merged approximate bounds must have the same amount of bins.".
Proof. repeat split. Qed.

(** Under manual bounds the accessor fails before a mechanism is built,
    and once [GenerateResult] has built one it returns the mechanism's
    interval; with inferred bounds it fails. *)
Lemma NoiseConfidenceInterval_by_mode_witness :
  let built :=
    match
      @GenerateResult Z _ _ _ optimised_build 1%float
        (AddEntries [3; 7; 15] (Examples.manual_int64 0 10))
    with
    | Completed run => final run
    | CheckFailed _ => Examples.manual_int64 0 10
    end in
  StatusOr_ok
    (returned
       (NoiseConfidenceInterval 0.5%float 1%float
          (Examples.manual_int64 0 10)))
  = false
  /\ returned (NoiseConfidenceInterval 0.5%float 1%float built)
     = StatusValue {| ci_lower_bound := (-10)%float;
                      ci_upper_bound := 10%float;
                      ci_confidence_level := 0.5%float |}
  /\ StatusOr_ok
       (returned
          (NoiseConfidenceInterval 0.5%float 1%float
             (Examples.auto_int64 8)))
     = false.
Proof.
  intros built. split; [|split].
  - pose proof
      (NoiseConfidenceInterval_by_mode
         (Examples.manual_int64 0 10) 0.5%float 1%float)
      as (_ & _ & Hmanual).
    destruct (Hmanual eq_refl) as [Hnone _].
    destruct (proj1 Hnone eq_refl) as [Hreturned _].
    now rewrite Hreturned.
  - pose proof
      (NoiseConfidenceInterval_by_mode built 0.5%float 1%float)
      as (_ & _ & Hmanual).
    destruct (Hmanual eq_refl) as [_ Hbuilt].
    destruct (Hbuilt {| ZeroNoise.epsilon := 1;
                        ZeroNoise.sensitivity := 10;
                        ZeroNoise.draws := 1 |} eq_refl)
      as [Hreturned _].
    rewrite Hreturned. reflexivity.
  - pose proof
      (NoiseConfidenceInterval_by_mode
         (Examples.auto_int64 8) 0.5%float 1%float)
      as (_ & Hauto & _).
    destruct (Hauto (mk_is_Some _ _ eq_refl)) as [Hreturned _].
    now rewrite Hreturned.
Defined.

(** C8 as stated does not hold: with a mechanism built the accessor
    returns what the mechanism answers, and the mechanism may itself
    refuse.  The manual-bounds accumulator below has built its mechanism
    in [GenerateResult]; asked for the interval at confidence level 2 it
    returns the mechanism's invalid-argument error. *)
Lemma NoiseConfidenceInterval_mechanism_refuses :
  let built :=
    match
      @GenerateResult Z _ _ _ optimised_build 1%float
        (AddEntries [3; 7; 15] (Examples.manual_int64 0 10))
    with
    | Completed run => final run
    | CheckFailed _ => Examples.manual_int64 0 10
    end in
  approx_bounds_ built = None
  /\ mechanism_ built
     = Some {| ZeroNoise.epsilon := 1;
               ZeroNoise.sensitivity := 10;
               ZeroNoise.draws := 1 |}
  /\ returned (NoiseConfidenceInterval 2%float 1%float built)
     = StatusError kInvalidArgument "Confidence level has to be in [0,1].".
Proof. repeat split. Qed.

(** An accumulator holding 20 that is reset and fed 4 and 25 holds 14, as
    a fresh one fed 4 and 25 does. *)
Lemma ResetState_then_AddEntries_witness :
  pos_sum_
    (AddEntries [4; 25]
       (ResetState (AddEntries [3; 7; 15] (Examples.manual_int64 0 10))))
  = [14]
  /\ pos_sum_ (AddEntries [4; 25] (Examples.manual_int64 0 10)) = [14].
Proof.
  assert (Hmanual :
    approx_bounds_ (AddEntries [3; 7; 15] (Examples.manual_int64 0 10)) = None)
    by reflexivity.
  assert (Hsum :
    pos_sum_ (AddEntries [3; 7; 15] (Examples.manual_int64 0 10)) = [20])
    by reflexivity.
  destruct
    (@ResetState_then_AddEntries Z Int64.numeric PlainHistogram.int64_lib
       ZeroNoise.lib (AddEntries [3; 7; 15] (Examples.manual_int64 0 10))
       [4; 25] 20 Hmanual Hsum) as [_ Hsame].
  split; [rewrite Hsame|]; reflexivity.
Defined.

(** ** The further properties on concrete accumulators *)

(** A second result from the accumulator that holds 20 would noise 20
    again: the first call leaves the sum and the bounds. *)
Lemma GenerateResult_manual_keeps_state_witness :
  let bs := AddEntries [3; 7; 15] (Examples.manual_int64 0 10) in
  exists run,
    @GenerateResult Z _ _ _ optimised_build 1%float bs = Completed run
    /\ pos_sum_ (final run) = [20]
    /\ lower_ (final run) = 0
    /\ upper_ (final run) = 10.
Proof.
  intros bs.
  destruct
    (@GenerateResult_manual_keeps_state Z Int64.numeric
       PlainHistogram.int64_lib ZeroNoise.lib optimised_build bs 1%float
       eq_refl eq_refl eq_refl)
    as (run & Hrun & (Hpos & _ & Hlower & Hupper & _) & _).
  exists run. rewrite Hpos, Hlower, Hupper. repeat split. exact Hrun.
Defined.

(** Six calls on a manual-bounds accumulator: the bounds are still 0 and
    10 and there is still one slot. *)
Lemma operations_keep_configuration_witness :
  let ops :=
    [Op_AddEntry 3; Op_GenerateResult 1%float; Op_ResetState;
     Op_AddEntry 25; Op_Merge Examples.payload_without_data;
     Op_NoiseConfidenceInterval 0.5%float 1%float] in
  let bs := Examples.manual_int64 0 10 in
  let bs' :=
    default bs (@apply_operations Z _ _ _ optimised_build ops bs) in
  pos_sum_ bs' = [10]
  /\ approx_bounds_ bs' = None
  /\ lower_ bs' = 0
  /\ upper_ bs' = 10
  /\ length (pos_sum_ bs') = 1%nat.
Proof.
  intros ops bs bs'.
  assert (Hops : @apply_operations Z _ _ _ optimised_build ops bs = Some bs')
    by reflexivity.
  destruct
    (@operations_keep_configuration Z Int64.numeric PlainHistogram.int64_lib
       ZeroNoise.lib optimised_build ops bs bs' Hops)
    as (_ & _ & Hmanual).
  destruct (Hmanual eq_refl) as (Hmode & Hlower & Hupper & Hpos & _).
  split; [reflexivity|]. split; [exact Hmode|].
  split; [exact Hlower|]. split; [exact Hupper|]. exact Hpos.
Defined.

(** A manual-bounds accumulator and one with eight bins a side reject
    each other's payload. *)
Lemma Merge_across_modes_rejected_witness :
  let a := AddEntries [3] (Examples.manual_int64 0 10) in
  let b := Examples.auto_int64 8 in
  Status_ok (fst (Merge (Serialize a) b)) = false
  /\ snd (Merge (Serialize a) b) = b
  /\ Status_ok (fst (Merge (Serialize b) a)) = false
  /\ snd (Merge (Serialize b) a) = a.
Proof.
  intros a b.
  destruct
    (proj2 (proj2 (@Merge_across_modes_rejected Z Int64.numeric
                     PlainHistogram.int64_lib ZeroNoise.lib))
       a b eq_refl eq_refl eq_refl)
    as [Hab Hba].
  rewrite Hab, Hba. repeat split.
Defined.

(** Two shard payloads merged into the accumulator holding 3, in either
    order. *)
Lemma Merge_order_irrelevant_witness :
  let s1 := Serialize (AddEntries [1; 2] (Examples.manual_int64 (-5) 5)) in
  let s2 := Serialize (AddEntries [-4] (Examples.manual_int64 (-5) 5)) in
  let bs := AddEntries [3] (Examples.manual_int64 0 10) in
  Merge s2 (snd (Merge s1 bs)) = Merge s1 (snd (Merge s2 bs))
  /\ pos_sum_ (snd (Merge s2 (snd (Merge s1 bs)))) = [2].
Proof.
  intros s1 s2 bs.
  destruct
    (@Merge_order_irrelevant Z Int64.numeric PlainHistogram.int64_lib
       ZeroNoise.lib Int64_commutative_addition Int64_exact_addition
       s1 s2
       {| bss_pos_sum := [IntValue 3]; bss_neg_sum := [];
          bss_bounds_summary := None |}
       {| bss_pos_sum := [IntValue (-4)]; bss_neg_sum := [];
          bss_bounds_summary := None |}
       bs eq_refl eq_refl eq_refl eq_refl eq_refl eq_refl)
    as (_ & _ & Hmanual).
  destruct (Hmanual eq_refl) as (_ & _ & Hsame).
  split; [exact Hsame|reflexivity].
Defined.

(** The entries 3, 7, 15 in another order. *)
Lemma AddEntries_order_irrelevant_witness :
  AddEntries [3; 7; 15] (Examples.manual_int64 0 10)
  = AddEntries [15; 3; 7] (Examples.manual_int64 0 10).
Proof.
  apply (@AddEntries_order_irrelevant Z Int64.numeric
           PlainHistogram.int64_lib ZeroNoise.lib
           Int64_commutative_addition Int64_exact_addition
           [3; 7; 15] [15; 3; 7] (Examples.manual_int64 0 10) 0
           eq_refl eq_refl).
  apply Permutation_sym. exact (Permutation_cons_append [3; 7] 15).
Defined.

(** The payload of a reset accumulator merged into the accumulator that
    holds 4. *)
Lemma Merge_of_reset_payload_witness :
  let a := AddEntries [3; 7] (Examples.manual_int64 0 10) in
  let b := AddEntries [4] (Examples.manual_int64 0 10) in
  Merge (Serialize (ResetState a)) b = (OkStatus, b).
Proof.
  intros a b.
  apply (@Merge_of_reset_payload Z Int64.numeric PlainHistogram.int64_lib
           ZeroNoise.lib Int64_commutative_addition Int64_exact_addition
           a b eq_refl eq_refl).
  - repeat constructor; cbv; discriminate.
  - constructor.
  - reflexivity.
Defined.

(** Three entries, none of them negative: the histogram has counted all
    three and [neg_sum_] is still at zero. *)
Lemma AddEntries_inferred_bounds_witness :
  let bs := AddEntries [3; 7; 100] (Examples.auto_int64 8) in
  approx_bounds_ bs
  = Some {| PlainHistogram.pos_bins := [0; 0; 1; 1; 0; 0; 0; 1];
            PlainHistogram.neg_bins := [0; 0; 0; 0; 0; 0; 0; 0] |}
  /\ neg_sum_ bs = [0; 0; 0; 0; 0; 0; 0; 0].
Proof.
  intros bs.
  destruct
    (@AddEntries_inferred_bounds Z Int64.numeric PlainHistogram.int64_lib
       ZeroNoise.lib [3; 7; 100] (Examples.auto_int64 8)
       (PlainHistogram.with_bins 8) eq_refl)
    as (Hhistogram & Hneg & _).
  split.
  - subst bs. rewrite Hhistogram. reflexivity.
  - subst bs. rewrite Hneg; [reflexivity|]. repeat constructor.
Defined.

(** Four entries and budget 1: the output holds the one element 95 and
    the histogram's report for the bounds -128 and 128. *)
Lemma GenerateResult_inferred_output_witness :
  let bs := AddEntries [3; 7; -15; 100] (Examples.auto_int64 8) in
  let run := @GenerateResult_after_check Z _ _ _ optimised_build 1%float bs in
  let output :=
    match returned run with
    | StatusValue o => o
    | StatusError _ _ => Output_default
    end in
  returned run = StatusValue output
  /\ Output_bounding_report output
     = Some {| PlainHistogram.report_lower := IntValue (-128);
               PlainHistogram.report_upper := IntValue 128 |}
  /\ pos_sum_ (final run) = pos_sum_ bs
  /\ neg_sum_ (final run) = neg_sum_ bs.
Proof.
  intros bs run output.
  assert (Hreturned : returned run = StatusValue output) by reflexivity.
  destruct
    (@GenerateResult_inferred_output Z Int64.numeric PlainHistogram.int64_lib
       ZeroNoise.lib optimised_build bs
       {| PlainHistogram.pos_bins := [0; 0; 1; 1; 0; 0; 0; 1];
          PlainHistogram.neg_bins := [0; 0; 0; 0; 1; 0; 0; 0] |}
       1%float
       {| elements := [IntValue (-16); IntValue 128]; error_report := None |}
       {| PlainHistogram.pos_bins := [0; 0; 1; 1; 0; 0; 0; 1];
          PlainHistogram.neg_bins := [0; 0; 0; 0; 1; 0; 0; 0] |}
       run output eq_refl eq_refl eq_refl eq_refl Hreturned)
    as (_ & Hreport & Hpos & Hneg & _).
  split; [exact Hreturned|]. split; [|split; [exact Hpos|exact Hneg]].
  rewrite Hreport. reflexivity.
Defined.

(** An accumulator with inferred bounds and no entry: the bounds inferred
    are 0 and 0, the mechanism builder refuses the sensitivity 0, and the
    call fails with no mechanism left. *)
Lemma GenerateResult_inferred_failure_witness :
  let bs := Examples.auto_int64 8 in
  let run := @GenerateResult_after_check Z _ _ _ optimised_build 1%float bs in
  returned run
  = StatusError kInvalidArgument "Sensitivity has to be positive."
  /\ approx_bounds_ (final run) = approx_bounds_ bs
  /\ pos_sum_ (final run) = pos_sum_ bs
  /\ mechanism_ (final run) = None.
Proof.
  intros bs run.
  assert (Hreturned :
    returned run
    = StatusError kInvalidArgument "Sensitivity has to be positive.")
    by reflexivity.
  destruct
    (@GenerateResult_inferred_failure Z Int64.numeric PlainHistogram.int64_lib
       ZeroNoise.lib optimised_build bs (PlainHistogram.with_bins 8)
       1%float run kInvalidArgument "Sensitivity has to be positive."
       eq_refl eq_refl eq_refl Hreturned)
    as (Hhistogram & Hpos & _ & _).
  split; [exact Hreturned|]. split; [rewrite Hhistogram; reflexivity|].
  split; [exact Hpos|reflexivity].
Defined.

(** The builder with the bounds 0 and 10: the accumulator it returns has
    them, and a mechanism. *)
Lemma BuildAlgorithm_result_witness :
  let run :=
    BuildAlgorithm Examples.BoundsSetup_accepts
      (Examples.builder_int64 0 10) in
  exists bs,
    returned run = StatusValue bs
    /\ lower_ bs = 0
    /\ upper_ bs = 10
    /\ CheckLowerBound 0 = OkStatus
    /\ is_Some (mechanism_ bs).
Proof.
  intros run.
  destruct
    (@BuildAlgorithm_result Z Int64.numeric PlainHistogram.int64_lib
       ZeroNoise.lib Examples.BoundsSetup_accepts
       (Examples.builder_int64 0 10) OkStatus (Examples.builder_int64 0 10)
       eq_refl)
    as [_ Hreturned].
  eexists. split; [reflexivity|].
  edestruct Hreturned as (_ & _ & Hlower & Hupper & _ & _ & _ & Hboth);
    [reflexivity|].
  destruct Hboth as (Hcheck & (m & Hm & _) & _).
  split; [exact Hlower|]. split; [exact Hupper|]. split; [exact Hcheck|].
  rewrite Hm. by eexists.
Defined.


(** -5 passes the check of the lower bound. *)
Lemma Int64_CheckLowerBound_witness :
  @CheckLowerBound Z Int64.numeric (-5) = OkStatus.
Proof.
  apply (Int64_CheckLowerBound (-5)).
  - cbv. split; discriminate.
  - discriminate.
Defined.


(** The accumulator with two bins a side and the payload without a
    histogram summary: the histogram's error comes back with 5 already
    added to [pos_sum_]. *)
Lemma Merge_histogram_error_after_sums_witness :
  let bs := Examples.auto_int64 2 in
  let merged := Merge Examples.payload_without_histogram bs in
  Status_ok (fst merged) = false
  /\ pos_sum_ bs = [0; 0]
  /\ pos_sum_ (snd merged) = [5; 0].
Proof.
  intros bs merged. subst merged.
  rewrite
    (@Merge_histogram_error_after_sums Z Int64.numeric
       PlainHistogram.int64_lib ZeroNoise.lib
       Examples.payload_without_histogram
       {| bss_pos_sum := [IntValue 5; IntValue 0];
          bss_neg_sum := [IntValue 0; IntValue 0];
          bss_bounds_summary := None |}
       bs (PlainHistogram.with_bins 2) kInvalidArgument
       "Merged approximate bounds must have the same amount of bins."
       (PlainHistogram.with_bins 2)
       eq_refl eq_refl eq_refl eq_refl eq_refl).
  repeat split.
Defined.
